(** * invenio-administration: admin views and the view registry

    A shallow embedding of [invenio_administration/views/base.py] and
    [invenio_administration/admin.py], and the properties of URL and
    endpoint resolution, construction-time validation, resource lookup,
    search configuration and view registration that hold of them.

    Conventions of the embedding:
    - a Python attribute that holds a string or [None] is an
      [option string]; other Python values are a [value];
    - a method that can raise returns a [result]; the order of the
      binds is the order of evaluation of the source;
    - a class is a record of its attributes as attribute lookup resolves
      them (its own or inherited); an instance starts from the values of
      its class and every assignment [self.x = v] is a record update;
    - [str.lower] and [str.upper] are modelled on ASCII letters. *)

From Stdlib Require Import String Ascii List Bool Arith Lia.
From stdpp Require Import base option strings gmap list.
Import ListNotations.
Local Open Scope string_scope.

(* ===================================================================== *)
(** ** Python values, truthiness, formatting *)
(* ===================================================================== *)

#[local] Set Warnings "-register-all".
Inductive value : Type :=
  | VNone
  | VBool (b : bool)
  | VStr (s : string)
  | VDict (items : list (string * value)).
#[local] Set Warnings "register-all".

(** [bool(v)]: [None], [False], the empty string and the empty mapping
    are false. *)
Definition truthy (v : value) : bool :=
  match v with
  | VNone => false
  | VBool b => b
  | VStr s => match s with EmptyString => false | String _ _ => true end
  | VDict items => match items with [] => false | _ :: _ => true end
  end.

(** [bool(s)] for an attribute that is a string or [None]. *)
Definition truthy_str (o : option string) : bool :=
  match o with
  | Some (String _ _) => true
  | _ => false
  end.

(** [str(x)], as [%s] and f-strings apply it. *)
Definition pystr (o : option string) : string :=
  match o with
  | Some s => s
  | None => "None"
  end.

Definition lower_ascii (c : ascii) : ascii :=
  let n := nat_of_ascii c in
  if ((65 <=? n) && (n <=? 90))%nat then ascii_of_nat (n + 32) else c.

Definition upper_ascii (c : ascii) : ascii :=
  let n := nat_of_ascii c in
  if ((97 <=? n) && (n <=? 122))%nat then ascii_of_nat (n - 32) else c.

Fixpoint map_chars (f : ascii -> ascii) (s : string) : string :=
  match s with
  | EmptyString => EmptyString
  | String c r => String (f c) (map_chars f r)
  end.

Definition lower (s : string) : string := map_chars lower_ascii s.
Definition upper (s : string) : string := map_chars upper_ascii s.

(** [s.startswith(p)] *)
Definition startswith (s p : string) : bool := String.prefix p s.

(** A string is a sequence of bytes here. On the strings all of whose
    bytes are below 128 [lower] and [upper] are [str.lower] and
    [str.upper]; on the others Python's case mapping is that of
    Unicode, and no statement is made about them. *)
Fixpoint ascii_only (s : string) : bool :=
  match s with
  | EmptyString => true
  | String c r => (nat_of_ascii c <? 128)%nat && ascii_only r
  end.

(** [c in s] for a character [c]. *)
Fixpoint contains_char (c : ascii) (s : string) : bool :=
  match s with
  | EmptyString => false
  | String d r => if ascii_dec c d then true else contains_char c r
  end.

(** ["." in s] *)
Definition contains_dot (s : string) : bool := contains_char "." s.

(** [s.replace(":", ".")] *)
Definition replace_colon (s : string) : string :=
  map_chars (fun c => if ascii_dec c ":" then "."%char else c) s.

(* ===================================================================== *)
(** ** Exceptions and the error monad *)
(* ===================================================================== *)

Inductive error : Type :=
  | Exception (msg : string)
  | AttributeError (msg : string)
  | KeyError (key : option string)
  | IndexError
  | TypeError (msg : string)
  | ValueError (msg : string)
  | ImportError (import_name : string)
  (** [invenio_administration.errors.InvalidResource(resource=, view=)] *)
  | InvalidResource (resource : option string) (view : string).

Inductive result (A : Type) : Type :=
  | Ok (a : A)
  | Err (e : error).
Arguments Ok {A} a.
Arguments Err {A} e.

#[global] Instance result_ret : MRet result := fun A a => Ok a.
#[global] Instance result_bind : MBind result :=
  fun A B f m => match m with Ok a => f a | Err e => Err e end.

Definition raises {A} (r : result A) : Prop := exists e, r = Err e.

(** [d[k]] on a dictionary with string keys: [KeyError] when absent,
    also for the key [None]. *)
Definition getitem {V} (d : gmap string V) (k : option string) : result V :=
  match k with
  | None => Err (KeyError None)
  | Some key =>
      match d !! key with
      | Some v => Ok v
      | None => Err (KeyError (Some key))
      end
  end.

(* ===================================================================== *)
(** ** The registry's attributes read by views *)
(* ===================================================================== *)

(** The attributes [Administration.__init__] sets once and nothing in
    the package assigns again. A view keeps a reference to the registry
    and reads only these, so the view's reference is modelled by their
    values. A class is identified by its qualified name. *)
Record AdminAttrs : Type := {
  adm_name : string;
  dashboard_view_class : option string;
  adm_endpoint : string;
  adm_url : string;
  base_template : string;
}.

(* ===================================================================== *)
(** ** AdminBaseView *)
(* ===================================================================== *)

(** What the [get] attribute of a view class is bound to. *)
Inductive handler : Type :=
  | BaseGet | DetailGet | ListGet | CustomGet.

(** Class attributes of a subclass of [AdminBaseView]. [class_name] is
    [__name__], [class_bases] the names of its proper ancestors. *)
Record BaseViewClass : Type := {
  class_name : string;
  class_bases : list string;
  c_extension : option string;
  c_name : option string;
  c_category : option string;
  c_endpoint : option string;
  c_template : string;
  c_url : option string;
  c_get : option handler;
}.

(** An instance: attribute lookup on [self]. *)
Record instance : Type := {
  self_class : BaseViewClass;
  _extension : option string;
  name : option string;
  category : option string;
  administration : option AdminAttrs;
  endpoint : option string;
  url : option string;
}.

(** A fresh object: every attribute resolves to the class attribute.
    [administration] is not a class attribute; it is assigned before it
    is first read. *)
Definition new (cls : BaseViewClass) : instance :=
  {| self_class := cls;
     _extension := c_extension cls;
     name := c_name cls;
     category := c_category cls;
     administration := None;
     endpoint := c_endpoint cls;
     url := c_url cls |}.

Definition set_extension (v : option string) (self : instance) : instance :=
  {| self_class := self_class self; _extension := v; name := name self;
     category := category self; administration := administration self;
     endpoint := endpoint self; url := url self |}.
Definition set_name (v : option string) (self : instance) : instance :=
  {| self_class := self_class self; _extension := _extension self; name := v;
     category := category self; administration := administration self;
     endpoint := endpoint self; url := url self |}.
Definition set_category (v : option string) (self : instance) : instance :=
  {| self_class := self_class self; _extension := _extension self;
     name := name self; category := v;
     administration := administration self;
     endpoint := endpoint self; url := url self |}.
Definition set_administration (v : option AdminAttrs) (self : instance) : instance :=
  {| self_class := self_class self; _extension := _extension self;
     name := name self; category := category self; administration := v;
     endpoint := endpoint self; url := url self |}.
Definition set_endpoint (v : option string) (self : instance) : instance :=
  {| self_class := self_class self; _extension := _extension self;
     name := name self; category := category self;
     administration := administration self; endpoint := v; url := url self |}.
Definition set_url (v : option string) (self : instance) : instance :=
  {| self_class := self_class self; _extension := _extension self;
     name := name self; category := category self;
     administration := administration self;
     endpoint := endpoint self; url := v |}.

(** [isinstance(self, cls)] for a class given by name. *)
Definition isinstance (self : instance) (cls : string) : bool :=
  bool_decide (cls ∈ class_name (self_class self) :: class_bases (self_class self)).

(** Arguments of the constructor. *)
Record init_args : Type := {
  arg_name : option string;
  arg_category : option string;
  arg_endpoint : option string;
  arg_url : option string;
  arg_extension : option string;
  arg_admin : option AdminAttrs;
}.

(** [__name__] of the module, the default of the [name] argument. *)
Definition module_name : string := "invenio_administration.views.base".

Definition default_args : init_args :=
  {| arg_name := Some module_name; arg_category := None;
     arg_endpoint := None; arg_url := None; arg_extension := None;
     arg_admin := None |}.

Module AdminBaseView.

(** [_get_endpoint(self, endpoint=None)]. When no argument is given
    and the class has an endpoint of its own, the body ends without a
    [return]: the call yields [None]. *)
Definition _get_endpoint (self : instance) (endpoint_arg : option string)
  : result (option string) :=
  if truthy_str endpoint_arg then Ok endpoint_arg
  else if negb (truthy_str (endpoint self)) then
    match name self with
    | Some n => Ok (Some (lower n))
    | None => Err (AttributeError "'NoneType' object has no attribute 'lower'")
    end
  else Ok None.

(** [_get_view_url(self, url)] *)
Definition _get_view_url (self : instance) (url_arg : option string)
  : result string :=
  match url_arg with
  | None =>
      match administration self with
      | None =>
          Err (AttributeError
                 "'NoneType' object has no attribute 'dashboard_view_class'")
      | Some adm =>
          match dashboard_view_class adm with
          | None => Err (TypeError "isinstance() arg 2 must be a type")
          | Some dash =>
              if isinstance self dash then Ok "/"
              else Ok ("/" ++ pystr (endpoint self))
          end
      end
  | Some u =>
      if negb (startswith u "/") then
        match administration self with
        | None => Err (AttributeError "'NoneType' object has no attribute 'url'")
        | Some adm => Ok (adm_url adm ++ "/" ++ u)
        end
      else Ok u
  end.

(** [url or self._get_view_url(self.url)] *)
Definition resolve_url (self : instance) (url_arg : option string)
  : result string :=
  if truthy_str url_arg then Ok (pystr url_arg)
  else _get_view_url self (url self).

Definition no_get_message (cls : BaseViewClass) : string :=
  "Cannot instantiate administration view" ++ " " ++ class_name cls ++ " "
  ++ "without a default GET view".

(** The object after the assignments of [_extension], [name],
    [category] and [administration], which cannot raise; [__init__]
    below goes through the same state. *)
Definition assigned (cls : BaseViewClass) (a : init_args) : instance :=
  {| self_class := cls;
     _extension := match c_extension cls with
                   | None => arg_extension a | Some e => Some e end;
     name := match c_name cls with
             | None => arg_name a | Some n => Some n end;
     category := match c_category cls with
                 | None => arg_category a | Some c => Some c end;
     administration := arg_admin a;
     endpoint := c_endpoint cls;
     url := c_url cls |}.

(** [__init__] *)
Definition __init__ (cls : BaseViewClass) (a : init_args) : result instance :=
  let self := new cls in
  let self := match _extension self with
              | None => set_extension (arg_extension a) self
              | Some _ => self end in
  let self := match name self with
              | None => set_name (arg_name a) self
              | Some _ => self end in
  let self := match category self with
              | None => set_category (arg_category a) self
              | Some _ => self end in
  let self := set_administration (arg_admin a) self in
  ep ← _get_endpoint self (arg_endpoint a);
  let self := set_endpoint ep self in
  u ← resolve_url self (arg_url a);
  let self := set_url (Some u) self in
  match c_get (self_class self) with
  | None => Err (Exception (no_get_message (self_class self)))
  | Some _ => Ok self
  end.

(** The [endpoint_location_name] property. Without a registry the
    attribute itself is returned, which may be [None]. *)
Definition endpoint_location_name (self : instance) : option string :=
  match administration self with
  | None => endpoint self
  | Some adm => Some (adm_endpoint adm ++ "." ++ pystr (endpoint self))
  end.

Definition _get_template (self : instance) : string :=
  c_template (self_class self).

End AdminBaseView.

(* ===================================================================== *)
(** ** The host application and the resource layer *)
(* ===================================================================== *)

(** A marshmallow schema instance, as far as a view holds it. *)
Record Schema : Type := {
  schema_fields : list (string * string);
}.

(** A resource object: [resource.config.blueprint_name],
    [resource.service.schema.schema()] and
    [resource.service.config.search]. *)
Record Resource : Type := {
  blueprint_name : string;
  service_schema : Schema;
  service_sort_options : value;
  service_facets : value;
}.

(** [current_app]: its extensions with their attributes, its
    configuration, and the rules by endpoint of the URL map of each
    mounted application. *)
Record App : Type := {
  extensions : gmap string (gmap string Resource);
  config : gmap string value;
  mounts : gmap string (gmap string (list string));
}.

(** The keyword arguments bound by
    [partial(search_app_config, ...)]. *)
Record search_config : Type := {
  config_name : string;
  sc_available_facets : value;
  sc_sort_options : value;
  sc_endpoint : string;
  sc_headers : value;
}.

(** A value of a template context. *)
Inductive ctx_value : Type :=
  | CStr (s : string)
  | CVal (v : value)
  | CSchema (s : Schema)
  | CSearchConfig (c : search_config).

(** The call [render_template(template, **context)]. *)
Record rendered : Type := {
  r_template : string;
  r_context : gmap string ctx_value;
}.

Module Render.

(** [AdminBaseView.render(self, **kwargs)] *)
Definition render (self : instance) (kwargs : gmap string ctx_value)
  : result rendered :=
  match administration self with
  | None => Err (AttributeError "'NoneType' object has no attribute 'base_template'")
  | Some adm =>
      let kwargs := <["admin_base_template" := CStr (base_template adm)]> kwargs in
      Ok {| r_template := AdminBaseView._get_template self;
            r_context := kwargs |}
  end.

(** [AdminBaseView.get(self)] *)
Definition get (self : instance) : result rendered := render self ∅.

End Render.

(* ===================================================================== *)
(** ** AdminResourceBaseView *)
(* ===================================================================== *)

Record ResourceViewClass : Type := {
  base : BaseViewClass;
  display_edit : bool;
  display_delete : bool;
  resource_config : option string;
  resource : option Resource;
  actions : value;
  schema : option Schema;
}.

(** An instance of a resource view: the attributes [__init__] assigns
    live in [as_view]; the others are read from the class. *)
Record resource_view : Type := {
  as_view : instance;
  r_class : ResourceViewClass;
}.

Definition with_resource (r : option Resource) (cls : ResourceViewClass)
  : ResourceViewClass :=
  {| base := base cls; display_edit := display_edit cls;
     display_delete := display_delete cls;
     resource_config := resource_config cls; resource := r;
     actions := actions cls; schema := schema cls |}.

Definition with_schema (s : option Schema) (cls : ResourceViewClass)
  : ResourceViewClass :=
  {| base := base cls; display_edit := display_edit cls;
     display_delete := display_delete cls;
     resource_config := resource_config cls; resource := resource cls;
     actions := actions cls; schema := s |}.

Module AdminResourceBaseView.

Definition no_extension_message (cls : ResourceViewClass) : string :=
  "Cannot instanciate resource view " ++ class_name (base cls) ++ " "
  ++ "without an associated flask extension.".

Definition no_resource_message (cls : ResourceViewClass) : string :=
  "Cannot instanciate resource view " ++ class_name (base cls) ++ " "
  ++ "without a resource.".

(** [__init__]: the base constructor, then the two checks. *)
Definition __init__ (cls : ResourceViewClass) (a : init_args)
  : result resource_view :=
  self ← AdminBaseView.__init__ (base cls) a;
  match _extension self with
  | None => Err (Exception (no_extension_message cls))
  | Some _ =>
      match resource_config cls with
      | None => Err (Exception (no_resource_message cls))
      | Some _ => Ok {| as_view := self; r_class := cls |}
      end
  end.

(** [_get_view_extension(cls, extension=None)], a class method of
    [AdminBaseView]: it reads the class attribute [_extension]. *)
Definition _get_view_extension (app : App) (cls : BaseViewClass)
    (extension : option string) : result (gmap string Resource) :=
  if truthy_str extension then getitem (extensions app) extension
  else getitem (extensions app) (c_extension cls).

(** [_get_resource(cls, extension=None)] *)
Definition _get_resource (app : App) (cls : ResourceViewClass)
    (extension : option string) : result Resource :=
  ext ← _get_view_extension app (base cls) extension;
  match resource_config cls with
  | None => Err (TypeError "attribute name must be string, not 'NoneType'")
  | Some attr =>
      match ext !! attr with
      | Some r => Ok r
      | None => Err (InvalidResource (resource_config cls) (class_name (base cls)))
      end
  end.

(** [set_resource(cls, extension=None)]: assigns the class
    attribute. *)
Definition set_resource (app : App) (cls : ResourceViewClass)
    (extension : option string) : result ResourceViewClass :=
  r ← _get_resource app cls extension;
  Ok (with_resource (Some r) cls).

(** [_get_service_schema(cls)] *)
Definition _get_service_schema (cls : ResourceViewClass) : result Schema :=
  match resource cls with
  | None => Err (AttributeError "'NoneType' object has no attribute 'service'")
  | Some r => Ok (service_schema r)
  end.

(** [set_schema(cls)] *)
Definition set_schema (cls : ResourceViewClass) : result ResourceViewClass :=
  s ← _get_service_schema cls;
  Ok (with_schema (Some s) cls).

Section Serialization.
(** [invenio_administration.marshmallow_utils.jsonify_schema] *)
Variable jsonify_schema : Schema -> value.

Definition _schema_to_json (s : Schema) : value := jsonify_schema s.
End Serialization.

End AdminResourceBaseView.

(* ===================================================================== *)
(** ** AdminResourceDetailView *)
(* ===================================================================== *)

Module AdminResourceDetailView.

Definition template : string := "invenio_administration/details.html".

Section Get.
Variable jsonify_schema : Schema -> value.

(** [get(self, pid_value=None)] *)
Definition get (self : resource_view) (pid_value : option string)
  : result rendered :=
  schema ← AdminResourceBaseView._get_service_schema (r_class self);
  let serialize_schema :=
    AdminResourceBaseView._schema_to_json jsonify_schema schema in
  Render.render (as_view self) {["schema" := CVal serialize_schema]}.
End Get.

End AdminResourceDetailView.

(* ===================================================================== *)
(** ** AdminResourceListView *)
(* ===================================================================== *)

Record ListViewClass : Type := {
  rbase : ResourceViewClass;
  display_create : bool;
  display_read : bool;
  search_config_name : option string;
  search_facets_config_name : option string;
  search_sort_config_name : option string;
  sort_options : value;
  available_facets : value;
  column_exclude_list : value;
  columns : value;
  search_api_endpoint : option string;
  search_request_headers : value;
}.

Record list_view : Type := {
  l_view : instance;
  l_class : ListViewClass;
}.

Module AdminResourceListView.

Definition template : string := "invenio_administration/search.html".

(** The class attribute [search_request_headers] of the base class. *)
Definition default_headers : value :=
  VDict [("Accept", VStr "application/vnd.inveniordm.v1+json")].

Definition get_search_request_headers (self : list_view) : value :=
  search_request_headers (l_class self).

Definition get_search_app_name (self : list_view) : result string :=
  match search_config_name (l_class self) with
  | None =>
      match name (l_view self) with
      | Some n => Ok (upper n ++ "_SEARCH")
      | None => Err (AttributeError "'NoneType' object has no attribute 'upper'")
      end
  | Some n => Ok n
  end.

(** [l[0]] *)
Definition first {A} (l : list A) : result A :=
  match l with
  | x :: _ => Ok x
  | [] => Err IndexError
  end.

Definition get_search_api_endpoint (app : App) (self : list_view)
  : result string :=
  match resource (rbase (l_class self)) with
  | None => Err (AttributeError "'NoneType' object has no attribute 'config'")
  | Some r =>
      let blueprint_name := blueprint_name r ++ ".search" in
      if truthy_str (search_api_endpoint (l_class self))
      then Ok (pystr (search_api_endpoint (l_class self)))
      else
        api ← getitem (mounts app) (Some "/api");
        rules ← getitem api (Some blueprint_name);
        blueprint_rule ← first rules;
        Ok ("/api/" ++ blueprint_rule)
  end.

(** [init_search_config(self)]: the keyword arguments are evaluated
    from left to right. *)
Definition init_search_config (app : App) (self : list_view)
  : result search_config :=
  cn ← get_search_app_name self;
  facets ← getitem (config app) (search_facets_config_name (l_class self));
  sorts ← getitem (config app) (search_sort_config_name (l_class self));
  ep ← get_search_api_endpoint app self;
  Ok {| config_name := cn;
        sc_available_facets := facets;
        sc_sort_options := sorts;
        sc_endpoint := ep;
        sc_headers := get_search_request_headers self |}.

Definition get_sort_options (self : list_view) : result value :=
  if negb (truthy (sort_options (l_class self))) then
    match resource (rbase (l_class self)) with
    | None => Err (AttributeError "'NoneType' object has no attribute 'service'")
    | Some r => Ok (service_sort_options r)
    end
  else Ok (sort_options (l_class self)).

Definition get_available_facets (self : list_view) : result value :=
  if negb (truthy (available_facets (l_class self))) then
    match resource (rbase (l_class self)) with
    | None => Err (AttributeError "'NoneType' object has no attribute 'service'")
    | Some r => Ok (service_facets r)
    end
  else Ok (available_facets (l_class self)).

(** [get(self)] *)
Definition get (app : App) (self : list_view) : result rendered :=
  search_conf ← init_search_config app self;
  schema ← AdminResourceBaseView._get_service_schema (rbase (l_class self));
  Render.render (l_view self)
    (<["columns" := CVal (columns (l_class self))]>
       (<["resource_schema" := CSchema schema]>
          {["search_config" := CSearchConfig search_conf]})).

End AdminResourceListView.

(* ===================================================================== *)
(** ** Administration *)
(* ===================================================================== *)

(** A view callable. [vf_name] is its [__name__]; a callable without
    that attribute has [None]. *)
Record view_func : Type := {
  vf_name : option string;
  vf_class : string;
}.

(** [flask.Blueprint]: its arguments and the URL rules added to it, in
    the order of the calls of [add_url_rule]. *)
Record Blueprint : Type := {
  bp_name : string;
  url_prefix : string;
  template_folder : string;
  static_folder : string;
  url_rules : list (option string * view_func);
}.

Record menu_entry : Type := {
  entry_endpoint : option string;
  entry_label : option string;
  entry_category : option string;
}.

(** Modelled from the spec: [invenio_administration.menu.AdminMenu],
    whose module is not part of the sources at hand. The menu holds
    its entries in insertion order; [add_view_to_menu] inserts one
    entry keyed by the view's endpoint-location name, with the view's
    [name] as label and its [category] as grouping. *)
Definition AdminMenu : Type := list menu_entry.

Definition add_view_to_menu (view_instance : instance) (menu : AdminMenu)
  : AdminMenu :=
  (menu ++ [ {| entry_endpoint := AdminBaseView.endpoint_location_name view_instance;
               entry_label := name view_instance;
               entry_category := category view_instance |} ])%list.

(** The registry: the attributes views read, and its mutable parts. *)
Record Registry : Type := {
  attrs : AdminAttrs;
  _views : list view_func;
  blueprint : Blueprint;
  _menu : AdminMenu;
  _menu_key : string;
}.

Definition with_views (v : list view_func) (self : Registry) : Registry :=
  {| attrs := attrs self; _views := v; blueprint := blueprint self;
     _menu := _menu self; _menu_key := _menu_key self |}.
Definition with_blueprint (bp : Blueprint) (self : Registry) : Registry :=
  {| attrs := attrs self; _views := _views self; blueprint := bp;
     _menu := _menu self; _menu_key := _menu_key self |}.
Definition with_menu (m : AdminMenu) (self : Registry) : Registry :=
  {| attrs := attrs self; _views := _views self; blueprint := blueprint self;
     _menu := m; _menu_key := _menu_key self |}.

Module Administration.

(** [flask.views.View.as_view(name, ...)]: the callable gets [name] as
    its [__name__], which must be a string. *)
Definition as_view (name : option string) (cls : BaseViewClass)
  : result view_func :=
  match name with
  | None => Err (TypeError "__name__ must be set to a string object")
  | Some n => Ok {| vf_name := Some n; vf_class := class_name cls |}
  end.

(** The test of [Blueprint.add_url_rule] on the callable:
    [hasattr(view_func, "__name__") and "." in view_func.__name__]. *)
Definition dotted_name (f : view_func) : bool :=
  match vf_name f with
  | Some n => contains_dot n
  | None => false
  end.

(** [flask.Blueprint(name, import_name, url_prefix=, template_folder=,
    static_folder=)], as of Flask 2: a name with a dot is refused. *)
Definition new_blueprint (name url_prefix template_folder static_folder : string)
  : result Blueprint :=
  if contains_dot name
  then Err (ValueError "'name' may not contain a dot '.' character.")
  else Ok {| bp_name := name; url_prefix := url_prefix;
             template_folder := template_folder;
             static_folder := static_folder;
             url_rules := [] |}.

(** [Blueprint.add_url_rule(rule, view_func=view)], as of Flask 2: no
    endpoint is given; a callable whose name has a dot is refused, and
    otherwise the rule is recorded, to be checked when the blueprint is
    registered with an application. *)
Definition add_url_rule (rule : option string) (f : view_func)
    (bp : Blueprint) : result Blueprint :=
  if dotted_name f
  then Err (ValueError "'view_func' name may not contain a dot '.' character.")
  else Ok {| bp_name := bp_name bp; url_prefix := url_prefix bp;
             template_folder := template_folder bp;
             static_folder := static_folder bp;
             url_rules := (url_rules bp ++ [(rule, f)])%list |}.

(** [create_blueprint(self)], from the attributes already set. *)
Definition create_blueprint (a : AdminAttrs) : result Blueprint :=
  new_blueprint (adm_endpoint a) (adm_url a) "templates" "static".

(** [add_view(self, view, view_instance, *args, **kwargs)]: the
    registry when the call ends, and how it ends. The three statements
    run in turn and nothing is caught, so an exception of
    [add_url_rule] leaves the callable appended, and the menu as it
    was. *)
Definition add_view (self : Registry) (view : view_func)
    (view_instance : instance) : Registry * result unit :=
  let self := with_views (_views self ++ [view])%list self in
  match add_url_rule (url view_instance) view (blueprint self) with
  | Err e => (self, Err e)
  | Ok bp =>
      let self := with_blueprint bp self in
      let self := with_menu (add_view_to_menu view_instance (_menu self)) self in
      (self, Ok tt)
  end.

(** [_add_dashboard_view(self)], for a dashboard class that keeps the
    constructor of [AdminBaseView]: the instance, then the callable
    named by the class attribute [name], then [add_view]. *)
Definition _add_dashboard_view (self : Registry)
    (dashboard : BaseViewClass) : Registry * result unit :=
  let args :=
    {| arg_name := Some module_name; arg_category := None;
       arg_endpoint := None; arg_url := None;
       arg_extension := Some "invenio-administration";
       arg_admin := Some (attrs self) |} in
  match AdminBaseView.__init__ dashboard args with
  | Err e => (self, Err e)
  | Ok dashboard_instance =>
      match as_view (c_name dashboard) dashboard with
      | Err e => (self, Err e)
      | Ok dashboard_view => add_view self dashboard_view dashboard_instance
      end
  end.

(** [werkzeug.utils.import_string] on the configured value, over the
    importable dotted names and the objects they are bound to: a view
    class, or [None]. The value must have [replace], as a string
    has. *)
Definition import_string (modules : gmap string (option BaseViewClass))
    (import_name : value) : result (option BaseViewClass) :=
  match import_name with
  | VStr s =>
      let import_name := replace_colon s in
      match modules !! import_name with
      | Some obj => Ok obj
      | None => Err (ImportError import_name)
      end
  | VNone => Err (AttributeError "'NoneType' object has no attribute 'replace'")
  | VBool _ => Err (AttributeError "'bool' object has no attribute 'replace'")
  | VDict _ => Err (AttributeError "'dict' object has no attribute 'replace'")
  end.

(** [load_admin_dashboard(self, app)] *)
Definition load_admin_dashboard (modules : gmap string (option BaseViewClass))
    (app : App) : result (option BaseViewClass) :=
  dashboard_config ← getitem (config app) (Some "ADMINISTRATION_DASHBOARD_VIEW");
  import_string modules dashboard_config.

(** [__init__(self, app, name, url, ui_endpoint, base_template)]: the
    dashboard class is loaded first, the blueprint is created from the
    attributes, and then the dashboard is added. An exception leaves no
    registry. The hook registered with [app.before_first_request] runs
    later and is not part of the construction. *)
Definition __init__ (modules : gmap string (option BaseViewClass))
    (app : App) (name url ui_endpoint base_template : option string)
  : result Registry :=
  let name := match name with None => "Administration" | Some n => n end in
  dashboard ← load_admin_dashboard modules app;
  let a :=
    {| adm_name := name;
       dashboard_view_class := class_name <$> dashboard;
       adm_endpoint := if truthy_str ui_endpoint then pystr ui_endpoint
                       else "administration";
       adm_url := if truthy_str url then pystr url else "/administration";
       base_template := if truthy_str base_template then pystr base_template
                        else "invenio_administration/base.html" |} in
  bp ← create_blueprint a;
  let self :=
    {| attrs := a; _views := []; blueprint := bp;
       _menu := []; _menu_key := "admin_navigation" |} in
  match dashboard with
  | Some cls =>
      let (self, outcome) := _add_dashboard_view self cls in
      _ ← outcome; Ok self
  | None => Ok self
  end.

End Administration.

(* ===================================================================== *)
(** ** Sample classes and registries *)
(* ===================================================================== *)

Module Samples.

(** The registry with its default attributes and [Dashboard] as the
    configured dashboard class. *)
Definition admin : AdminAttrs :=
  {| adm_name := "Administration";
     dashboard_view_class := Some "Dashboard";
     adm_endpoint := "administration";
     adm_url := "/administration";
     base_template := "invenio_administration/base.html" |}.

Definition Dashboard : BaseViewClass :=
  {| class_name := "Dashboard"; class_bases := ["AdminBaseView"; "MethodView"];
     c_extension := None; c_name := Some "Dashboard"; c_category := None;
     c_endpoint := None; c_template := "invenio_administration/index.html";
     c_url := None; c_get := Some BaseGet |}.

(** A plain view that declares only its name. *)
Definition Records : BaseViewClass :=
  {| class_name := "RecordsView"; class_bases := ["AdminBaseView"; "MethodView"];
     c_extension := None; c_name := Some "Records"; c_category := None;
     c_endpoint := None; c_template := "invenio_administration/index.html";
     c_url := None; c_get := Some BaseGet |}.

(** A view whose class declares an endpoint of its own. *)
Definition Users : BaseViewClass :=
  {| class_name := "UsersView"; class_bases := ["AdminBaseView"; "MethodView"];
     c_extension := None; c_name := Some "Users"; c_category := None;
     c_endpoint := Some "people"; c_template := "invenio_administration/index.html";
     c_url := None; c_get := Some BaseGet |}.

(** A view whose class declares a relative URL. *)
Definition Stats : BaseViewClass :=
  {| class_name := "StatsView"; class_bases := ["AdminBaseView"; "MethodView"];
     c_extension := None; c_name := Some "Stats"; c_category := None;
     c_endpoint := None; c_template := "invenio_administration/index.html";
     c_url := Some "stats/all"; c_get := Some BaseGet |}.

(** A subclass that sets [get = None]. *)
Definition NoGet : BaseViewClass :=
  {| class_name := "NoGetView"; class_bases := ["AdminBaseView"; "MethodView"];
     c_extension := None; c_name := Some "NoGet"; c_category := None;
     c_endpoint := None; c_template := "invenio_administration/index.html";
     c_url := None; c_get := None |}.

Definition with_admin : init_args :=
  {| arg_name := Some module_name; arg_category := None;
     arg_endpoint := None; arg_url := None; arg_extension := None;
     arg_admin := Some admin |}.

Definition with_admin_url (u : string) : init_args :=
  {| arg_name := Some module_name; arg_category := None;
     arg_endpoint := None; arg_url := Some u; arg_extension := None;
     arg_admin := Some admin |}.

(** The resource layer: one extension with one resource. *)
Definition users_schema : Schema :=
  {| schema_fields := [("email", "Email"); ("active", "Boolean")] |}.

Definition users_resource : Resource :=
  {| blueprint_name := "users";
     service_schema := users_schema;
     service_sort_options := VDict [("bestmatch", VStr "Best match")];
     service_facets := VDict [("status", VStr "Status")] |}.

Definition app : App :=
  {| extensions := {["invenio-users" := {["users_resource" := users_resource]}]};
     config := <["USERS_FACETS" := VDict [("domain", VStr "Domain")]]>
               {["USERS_SORT" := VDict [("newest", VStr "Newest")]]};
     mounts := {["/api" := {["users.search" := ["/users"]]}]} |}.

Definition jsonify (s : Schema) : value :=
  VDict (List.map (fun f => (fst f, VStr (snd f))) (schema_fields s)).

Definition detail_base (cname : string) : BaseViewClass :=
  {| class_name := cname;
     class_bases := ["AdminResourceDetailView"; "AdminResourceBaseView";
                     "AdminBaseView"; "MethodView"];
     c_extension := Some "invenio-users"; c_name := Some "Users";
     c_category := None; c_endpoint := None;
     c_template := AdminResourceDetailView.template;
     c_url := None; c_get := Some DetailGet |}.

(** A detail view bound to the resource of the extension. *)
Definition UserDetail : ResourceViewClass :=
  {| base := detail_base "UserDetailView";
     display_edit := false; display_delete := false;
     resource_config := Some "users_resource";
     resource := Some users_resource;
     actions := VDict []; schema := None |}.

(** A resource view whose [resource_config] names an attribute the
    extension does not have. *)
Definition Misnamed : ResourceViewClass :=
  {| base := detail_base "MisnamedView";
     display_edit := false; display_delete := false;
     resource_config := Some "groups_resource";
     resource := None;
     actions := VDict []; schema := None |}.

Definition user_detail : resource_view :=
  {| as_view :=
       {| self_class := base UserDetail; _extension := Some "invenio-users";
          name := Some "Users"; category := None;
          administration := Some admin;
          endpoint := Some "users"; url := Some "/users" |};
     r_class := UserDetail |}.

Definition list_base : BaseViewClass :=
  {| class_name := "UserListView";
     class_bases := ["AdminResourceListView"; "AdminResourceBaseView";
                     "AdminBaseView"; "MethodView"];
     c_extension := Some "invenio-users"; c_name := Some "Users";
     c_category := None; c_endpoint := None;
     c_template := AdminResourceListView.template;
     c_url := None; c_get := Some ListGet |}.

Definition list_resource_class : ResourceViewClass :=
  {| base := list_base;
     display_edit := false; display_delete := false;
     resource_config := Some "users_resource";
     resource := Some users_resource;
     actions := VDict []; schema := None |}.

(** A list view that declares its own facets and sort options and
    names the configuration entries of the application. *)
Definition UserList : ListViewClass :=
  {| rbase := list_resource_class;
     display_create := false; display_read := true;
     search_config_name := None;
     search_facets_config_name := Some "USERS_FACETS";
     search_sort_config_name := Some "USERS_SORT";
     sort_options := VDict [("email", VStr "Email")];
     available_facets := VDict [("active", VStr "Active")];
     column_exclude_list := VNone; columns := VNone;
     search_api_endpoint := None;
     search_request_headers := AdminResourceListView.default_headers |}.

(** The same view with the mappings declared empty. *)
Definition UserListEmpty : ListViewClass :=
  {| rbase := list_resource_class;
     display_create := false; display_read := true;
     search_config_name := None;
     search_facets_config_name := Some "USERS_FACETS";
     search_sort_config_name := Some "USERS_SORT";
     sort_options := VDict [];
     available_facets := VDict [];
     column_exclude_list := VNone; columns := VNone;
     search_api_endpoint := None;
     search_request_headers := AdminResourceListView.default_headers |}.

Definition list_instance (cls : ListViewClass) : list_view :=
  {| l_view :=
       {| self_class := base (rbase cls); _extension := Some "invenio-users";
          name := Some "Users"; category := None;
          administration := Some admin;
          endpoint := Some "users"; url := Some "/users" |};
     l_class := cls |}.

(** A registry that holds the dashboard. *)
Definition registry : Registry :=
  {| attrs := admin;
     _views := [ {| vf_name := Some "Dashboard"; vf_class := "Dashboard" |} ];
     blueprint :=
       {| bp_name := "administration"; url_prefix := "/administration";
          template_folder := "templates"; static_folder := "static";
          url_rules := [ (Some "/",
                          {| vf_name := Some "Dashboard";
                             vf_class := "Dashboard" |}) ] |};
     _menu := [ {| entry_endpoint := Some "administration.dashboard";
                   entry_label := Some "Dashboard";
                   entry_category := None |} ];
     _menu_key := "admin_navigation" |}.

(** A subclass of the dashboard class. *)
Definition Landing : BaseViewClass :=
  {| class_name := "LandingView";
     class_bases := ["Dashboard"; "AdminBaseView"; "MethodView"];
     c_extension := None; c_name := Some "Landing"; c_category := Some "Home";
     c_endpoint := None; c_template := "invenio_administration/index.html";
     c_url := None; c_get := Some BaseGet |}.

(** A view that leaves every label to the constructor. *)
Definition Anonymous : BaseViewClass :=
  {| class_name := "AnonymousView"; class_bases := ["AdminBaseView"; "MethodView"];
     c_extension := None; c_name := None; c_category := None;
     c_endpoint := None; c_template := "invenio_administration/index.html";
     c_url := None; c_get := Some BaseGet |}.

Definition labelled_args : init_args :=
  {| arg_name := Some "Audit Log"; arg_category := Some "System";
     arg_endpoint := Some "audit"; arg_url := None;
     arg_extension := Some "invenio-audit"; arg_admin := Some admin |}.

(** A resource view class that leaves [_extension] to the
    constructor. *)
Definition Unbound : ResourceViewClass :=
  {| base :=
       {| class_name := "UnboundView";
          class_bases := ["AdminResourceBaseView"; "AdminBaseView"; "MethodView"];
          c_extension := None; c_name := Some "Unbound"; c_category := None;
          c_endpoint := None; c_template := "invenio_administration/index.html";
          c_url := None; c_get := Some BaseGet |};
     display_edit := false; display_delete := false;
     resource_config := Some "users_resource";
     resource := None;
     actions := VDict []; schema := None |}.

Definition with_extension (e : string) : init_args :=
  {| arg_name := Some module_name; arg_category := None;
     arg_endpoint := None; arg_url := None; arg_extension := Some e;
     arg_admin := Some admin |}.

(** A list view that keeps the class defaults of the two
    configuration names and gives its search endpoint itself. *)
Definition UserListDefaults : ListViewClass :=
  {| rbase := list_resource_class;
     display_create := false; display_read := true;
     search_config_name := None;
     search_facets_config_name := None;
     search_sort_config_name := None;
     sort_options := VDict [];
     available_facets := VDict [];
     column_exclude_list := VNone; columns := VNone;
     search_api_endpoint := Some "/api/users";
     search_request_headers := AdminResourceListView.default_headers |}.

(** The application as the registry's constructor needs it. *)
Definition host : App :=
  {| extensions := ∅;
     config := {["ADMINISTRATION_DASHBOARD_VIEW" := VStr "app.Dashboard"]};
     mounts := ∅ |}.

Definition importable : gmap string (option BaseViewClass) :=
  <["app.Dashboard" := Some Dashboard]> {["app.nothing" := None]}.

(** The view [Records], constructed with the registry, and two
    callables for it: one named as a view is, one with a dotted
    name. *)
Definition records : instance :=
  {| self_class := Records; _extension := None;
     name := Some "Records"; category := None;
     administration := Some admin;
     endpoint := Some "records"; url := Some "/records" |}.

Definition records_view : view_func :=
  {| vf_name := Some "Records"; vf_class := "RecordsView" |}.

Definition dotted_records_view : view_func :=
  {| vf_name := Some "my.records"; vf_class := "RecordsView" |}.

End Samples.

(* ===================================================================== *)
(** ** Evaluation on the samples *)
(* ===================================================================== *)


Example records_instance :
  AdminBaseView.__init__ Samples.Records Samples.with_admin
  = Ok {| self_class := Samples.Records; _extension := None;
          name := Some "Records"; category := None;
          administration := Some Samples.admin;
          endpoint := Some "records"; url := Some "/records" |}.
Proof. reflexivity. Qed.

Example records_menu_endpoint :
  AdminBaseView.endpoint_location_name
    {| self_class := Samples.Records; _extension := None;
       name := Some "Records"; category := None;
       administration := Some Samples.admin;
       endpoint := Some "records"; url := Some "/records" |}
  = Some "administration.records".
Proof. reflexivity. Qed.

Example user_detail_constructed :
  AdminResourceBaseView.__init__ Samples.UserDetail Samples.with_admin
  = Ok Samples.user_detail.
Proof. reflexivity. Qed.

Example registry_constructed :
  Administration.__init__ {["app.Dashboard" := Some Samples.Dashboard]}
    {| extensions := ∅;
       config := {["ADMINISTRATION_DASHBOARD_VIEW" := VStr "app.Dashboard"]};
       mounts := ∅ |}
    None None None None
  = Ok Samples.registry.
Proof. vm_compute. reflexivity. Qed.

(* ===================================================================== *)
(** ** The constructor of AdminBaseView, step by step *)
(* ===================================================================== *)

Section Constructor.
Import AdminBaseView.

Lemma init_steps (cls : BaseViewClass) (a : init_args) :
  __init__ cls a =
  (ep ← _get_endpoint (assigned cls a) (arg_endpoint a);
   u ← resolve_url (set_endpoint ep (assigned cls a)) (arg_url a);
   match c_get cls with
   | None => Err (Exception (no_get_message cls))
   | Some _ => Ok (set_url (Some u) (set_endpoint ep (assigned cls a)))
   end).
Proof.
  unfold __init__, assigned, new; simpl.
  destruct (c_extension cls), (c_name cls), (c_category cls); reflexivity.
Qed.

(** What a successful construction went through. *)
Lemma init_ok_inv (cls : BaseViewClass) (a : init_args) (self : instance) :
  __init__ cls a = Ok self ->
  exists ep u,
    _get_endpoint (assigned cls a) (arg_endpoint a) = Ok ep /\
    resolve_url (set_endpoint ep (assigned cls a)) (arg_url a) = Ok u /\
    is_Some (c_get cls) /\
    self = set_url (Some u) (set_endpoint ep (assigned cls a)).
Proof.
  rewrite init_steps. unfold mbind, result_bind.
  destruct (_get_endpoint _ _) as [ep|] eqn:Hep; [|discriminate].
  destruct (resolve_url _ _) as [u|] eqn:Hu; [|discriminate].
  destruct (c_get cls) as [h|] eqn:Hget; [|discriminate].
  intros [= <-]. exists ep, u. eauto.
Qed.

(** Endpoint resolution raises only when there is no name to lower. *)
Lemma get_endpoint_total (cls : BaseViewClass) (a : init_args) :
  is_Some (c_name cls) \/ is_Some (arg_name a) ->
  exists ep, _get_endpoint (assigned cls a) (arg_endpoint a) = Ok ep.
Proof.
  intros Hname. unfold _get_endpoint, assigned; simpl.
  destruct (truthy_str (arg_endpoint a)); [eauto|].
  destruct (negb (truthy_str (c_endpoint cls))); [|eauto].
  destruct (c_name cls) as [n|]; [eauto|].
  destruct Hname as [[? [=]]|[n ->]]. eauto.
Qed.

(** URL resolution raises only for want of a registry or of its
    dashboard class. *)
Lemma resolve_url_total (self : instance) (u : option string)
      (adm : AdminAttrs) (dash : string) :
  administration self = Some adm ->
  dashboard_view_class adm = Some dash ->
  exists r, resolve_url self u = Ok r.
Proof.
  intros Hadm Hdash. unfold resolve_url, _get_view_url.
  destruct (truthy_str u); [eauto|].
  rewrite Hadm, Hdash.
  destruct (url self) as [cu|].
  - destruct (negb (startswith cu "/")); eauto.
  - destruct (isinstance self dash); eauto.
Qed.

Lemma init_total (cls : BaseViewClass) (a : init_args)
      (adm : AdminAttrs) (dash : string) :
  arg_admin a = Some adm ->
  dashboard_view_class adm = Some dash ->
  is_Some (c_name cls) \/ is_Some (arg_name a) ->
  is_Some (c_get cls) ->
  exists self, __init__ cls a = Ok self.
Proof.
  intros Hadm Hdash Hname [h Hget].
  rewrite init_steps. unfold mbind, result_bind.
  destruct (get_endpoint_total cls a Hname) as [ep ->].
  destruct (resolve_url_total (set_endpoint ep (assigned cls a)) (arg_url a)
              adm dash Hadm Hdash) as [u ->].
  rewrite Hget. eauto.
Qed.

Lemma isinstance_own_class (self : instance) :
  isinstance self (class_name (self_class self)) = true.
Proof.
  unfold isinstance. apply bool_decide_eq_true. apply list_elem_of_here.
Qed.

End Constructor.

Lemma init_with (cls : BaseViewClass) (a : init_args)
      (ep : option string) (u : string) :
  AdminBaseView._get_endpoint (AdminBaseView.assigned cls a) (arg_endpoint a) = Ok ep ->
  AdminBaseView.resolve_url (set_endpoint ep (AdminBaseView.assigned cls a)) (arg_url a) = Ok u ->
  is_Some (c_get cls) ->
  AdminBaseView.__init__ cls a
  = Ok (set_url (Some u) (set_endpoint ep (AdminBaseView.assigned cls a))).
Proof.
  intros Hep Hu [h Hget]. rewrite init_steps, Hep. simpl.
  rewrite Hu. simpl. now rewrite Hget.
Qed.

(** The constructor raises none of the errors of resource lookup. *)
Lemma init_error_kind (cls : BaseViewClass) (a : init_args) (e : error) :
  AdminBaseView.__init__ cls a = Err e ->
  match e with
  | Exception _ | AttributeError _ | TypeError _ => True
  | _ => False
  end.
Proof.
  rewrite init_steps. unfold mbind, result_bind.
  destruct (AdminBaseView._get_endpoint _ _) as [ep|e1] eqn:Hep.
  - destruct (AdminBaseView.resolve_url _ _) as [u|e2] eqn:Hu.
    + destruct (c_get cls); [discriminate|]. now intros [= <-].
    + intros [= <-]. revert Hu.
      unfold AdminBaseView.resolve_url, AdminBaseView._get_view_url.
      repeat match goal with
             | |- context [match ?x with _ => _ end] => destruct x
             end; intros [= <-]; exact I.
  - intros [= <-]. revert Hep. unfold AdminBaseView._get_endpoint.
    repeat match goal with
           | |- context [match ?x with _ => _ end] => destruct x
           end; intros [= <-]; exact I.
Qed.

(* ===================================================================== *)
(** ** URL resolution *)
(* ===================================================================== *)

(** C1, as stated, fails: the dashboard class constructed with the
    url argument ["/home"] keeps ["/home"]; the test for the dashboard
    class is not reached. *)
Lemma dashboard_url_argument_kept :
  dashboard_view_class Samples.admin = Some (class_name Samples.Dashboard) /\
  AdminBaseView.__init__ Samples.Dashboard (Samples.with_admin_url "/home")
  = Ok {| self_class := Samples.Dashboard; _extension := None;
          name := Some "Dashboard"; category := None;
          administration := Some Samples.admin;
          endpoint := Some "dashboard"; url := Some "/home" |} /\
  ~ (forall self,
        AdminBaseView.__init__ Samples.Dashboard (Samples.with_admin_url "/home")
        = Ok self -> url self = Some "/").
Proof.
  split; [reflexivity|]. split; [reflexivity|].
  intros H. specialize (H _ eq_refl). discriminate H.
Qed.

(** C1, amended: an instance of the registry's configured dashboard
    class, constructed without a url argument (none, or the empty
    string) and whose class declares no url of its own, has the URL
    ["/"]; and its construction succeeds when the class has a GET
    handler and a name is available. *)
Theorem dashboard_url_is_root (cls : BaseViewClass) (a : init_args)
        (adm : AdminAttrs) :
  arg_admin a = Some adm ->
  dashboard_view_class adm = Some (class_name cls) ->
  truthy_str (arg_url a) = false ->
  c_url cls = None ->
  (forall self, AdminBaseView.__init__ cls a = Ok self -> url self = Some "/") /\
  (is_Some (c_name cls) \/ is_Some (arg_name a) ->
   is_Some (c_get cls) ->
   exists self, AdminBaseView.__init__ cls a = Ok self /\ url self = Some "/").
Proof.
  intros Hadm Hdash Harg Hcls.
  assert (Hroot : forall ep,
             AdminBaseView.resolve_url
               (set_endpoint ep (AdminBaseView.assigned cls a)) (arg_url a)
             = Ok "/").
  { intros ep. unfold AdminBaseView.resolve_url. rewrite Harg. simpl.
    rewrite Hcls. unfold AdminBaseView._get_view_url. simpl.
    rewrite Hadm, Hdash.
    pose proof (isinstance_own_class
                  (set_endpoint ep (AdminBaseView.assigned cls a))) as Hself.
    simpl in Hself. now rewrite Hself. }
  split.
  - intros self Hinit.
    destruct (init_ok_inv _ _ _ Hinit) as (ep & u & _ & Hu & _ & ->).
    rewrite Hroot in Hu. injection Hu as <-. reflexivity.
  - intros Hname Hget.
    destruct (get_endpoint_total cls a Hname) as [ep Hep].
    eexists. split; [exact (init_with _ _ _ _ Hep (Hroot ep) Hget)|reflexivity].
Qed.

Lemma dashboard_url_is_root_witness :
  exists self,
    AdminBaseView.__init__ Samples.Dashboard Samples.with_admin = Ok self /\
    url self = Some "/".
Proof.
  apply (dashboard_url_is_root Samples.Dashboard Samples.with_admin Samples.admin);
    try reflexivity.
  - left. eexists. reflexivity.
  - eexists. reflexivity.
Defined.

(** C5, as stated, fails: a non-dashboard view constructed with the
    relative url argument ["reports"] keeps ["reports"], not
    ["/administration/reports"]. *)
Lemma relative_url_argument_kept :
  dashboard_view_class Samples.admin <> Some (class_name Samples.Records) /\
  startswith "reports" "/" = false /\
  AdminBaseView.__init__ Samples.Records (Samples.with_admin_url "reports")
  = Ok {| self_class := Samples.Records; _extension := None;
          name := Some "Records"; category := None;
          administration := Some Samples.admin;
          endpoint := Some "records"; url := Some "reports" |} /\
  Some "reports" <> Some (adm_url Samples.admin ++ "/" ++ "reports").
Proof.
  repeat split; try reflexivity; discriminate.
Qed.

(** C5, amended: a non-empty url argument is the URL of the view as it
    stands, whether it starts with ["/"] or not. Without a url
    argument, a url declared on the class that does not start with
    ["/"] is rewritten to the registry's URL prefix, ["/"] and that
    url, and one that starts with ["/"] is kept. *)
Theorem url_argument_verbatim_class_url_prefixed
        (cls : BaseViewClass) (a : init_args) :
  is_Some (c_get cls) ->
  is_Some (c_name cls) \/ is_Some (arg_name a) ->
  (forall u, arg_url a = Some u -> u <> "" ->
     exists self, AdminBaseView.__init__ cls a = Ok self /\ url self = Some u) /\
  (forall u adm,
     truthy_str (arg_url a) = false -> c_url cls = Some u ->
     startswith u "/" = false -> arg_admin a = Some adm ->
     exists self, AdminBaseView.__init__ cls a = Ok self /\
                  url self = Some (adm_url adm ++ "/" ++ u)) /\
  (forall u,
     truthy_str (arg_url a) = false -> c_url cls = Some u ->
     startswith u "/" = true ->
     exists self, AdminBaseView.__init__ cls a = Ok self /\ url self = Some u).
Proof.
  intros Hget Hname.
  destruct (get_endpoint_total cls a Hname) as [ep Hep].
  split; [|split].
  - intros u Hu Hne.
    assert (Hr : AdminBaseView.resolve_url
                   (set_endpoint ep (AdminBaseView.assigned cls a)) (arg_url a)
                 = Ok u).
    { unfold AdminBaseView.resolve_url. rewrite Hu.
      destruct u; [congruence|reflexivity]. }
    eexists. split; [exact (init_with _ _ _ _ Hep Hr Hget)|reflexivity].
  - intros u adm Harg Hcls Hrel Hadm.
    assert (Hr : AdminBaseView.resolve_url
                   (set_endpoint ep (AdminBaseView.assigned cls a)) (arg_url a)
                 = Ok (adm_url adm ++ "/" ++ u)).
    { unfold AdminBaseView.resolve_url. rewrite Harg. simpl. rewrite Hcls.
      unfold AdminBaseView._get_view_url. rewrite Hrel. simpl.
      now rewrite Hadm. }
    eexists. split; [exact (init_with _ _ _ _ Hep Hr Hget)|reflexivity].
  - intros u Harg Hcls Habs.
    assert (Hr : AdminBaseView.resolve_url
                   (set_endpoint ep (AdminBaseView.assigned cls a)) (arg_url a)
                 = Ok u).
    { unfold AdminBaseView.resolve_url. rewrite Harg. simpl. rewrite Hcls.
      unfold AdminBaseView._get_view_url. now rewrite Habs. }
    eexists. split; [exact (init_with _ _ _ _ Hep Hr Hget)|reflexivity].
Qed.

Lemma url_argument_verbatim_class_url_prefixed_witness :
  (exists self,
     AdminBaseView.__init__ Samples.Stats (Samples.with_admin_url "/custom")
     = Ok self /\ url self = Some "/custom") /\
  (exists self,
     AdminBaseView.__init__ Samples.Stats Samples.with_admin = Ok self /\
     url self = Some "/administration/stats/all").
Proof.
  split.
  - destruct (url_argument_verbatim_class_url_prefixed
                Samples.Stats (Samples.with_admin_url "/custom")) as (Harg & _).
    + eexists; reflexivity.
    + left; eexists; reflexivity.
    + apply Harg; [reflexivity | discriminate].
  - destruct (url_argument_verbatim_class_url_prefixed
                Samples.Stats Samples.with_admin) as (_ & Hrel & _).
    + eexists; reflexivity.
    + left; eexists; reflexivity.
    + apply (Hrel "stats/all" Samples.admin); reflexivity.
Defined.

(* ===================================================================== *)
(** ** Construction-time validation *)
(* ===================================================================== *)

(** C3: a view class whose [get] attribute is [None] cannot be
    instantiated: the constructor raises for every choice of arguments.
    When it is given a registry with a dashboard class and a name is
    available, so that endpoint and URL resolution go through, the
    error is the [Exception] whose message names the class. *)
Theorem no_get_handler_fails_at_construction
        (cls : BaseViewClass) (a : init_args) :
  c_get cls = None ->
  raises (AdminBaseView.__init__ cls a) /\
  (forall adm dash,
     arg_admin a = Some adm -> dashboard_view_class adm = Some dash ->
     is_Some (c_name cls) \/ is_Some (arg_name a) ->
     AdminBaseView.__init__ cls a
     = Err (Exception ("Cannot instantiate administration view "
                       ++ class_name cls ++ " without a default GET view"))).
Proof.
  intros Hget. split.
  - unfold raises. rewrite init_steps. unfold mbind, result_bind.
    destruct (AdminBaseView._get_endpoint _ _); [|eauto].
    destruct (AdminBaseView.resolve_url _ _); [|eauto].
    rewrite Hget. eauto.
  - intros adm dash Hadm Hdash Hname.
    rewrite init_steps. unfold mbind, result_bind.
    destruct (get_endpoint_total cls a Hname) as [ep ->].
    destruct (resolve_url_total (set_endpoint ep (AdminBaseView.assigned cls a))
                (arg_url a) adm dash Hadm Hdash) as [u ->].
    rewrite Hget. reflexivity.
Qed.

Lemma no_get_handler_fails_at_construction_witness :
  raises (AdminBaseView.__init__ Samples.NoGet Samples.with_admin) /\
  AdminBaseView.__init__ Samples.NoGet Samples.with_admin
  = Err (Exception
           "Cannot instantiate administration view NoGetView without a default GET view").
Proof.
  destruct (no_get_handler_fails_at_construction
              Samples.NoGet Samples.with_admin eq_refl) as [Hraises Hmsg].
  split; [exact Hraises|].
  apply (Hmsg Samples.admin "Dashboard"); [reflexivity | reflexivity |].
  left. eexists. reflexivity.
Defined.

(* ===================================================================== *)
(** ** Endpoint resolution *)
(* ===================================================================== *)

Lemma get_endpoint_argument (self : instance) (e : option string) :
  truthy_str e = true -> AdminBaseView._get_endpoint self e = Ok e.
Proof. intros H. unfold AdminBaseView._get_endpoint. now rewrite H. Qed.

Lemma get_endpoint_lowered_name (self : instance) (e : option string)
      (n : string) :
  truthy_str e = false -> truthy_str (endpoint self) = false ->
  name self = Some n ->
  AdminBaseView._get_endpoint self e = Ok (Some (lower n)).
Proof.
  intros He Hc Hn. unfold AdminBaseView._get_endpoint.
  now rewrite He, Hc, Hn.
Qed.

Lemma get_endpoint_class_endpoint (self : instance) (e : option string) :
  truthy_str e = false -> truthy_str (endpoint self) = true ->
  AdminBaseView._get_endpoint self e = Ok None.
Proof.
  intros He Hc. unfold AdminBaseView._get_endpoint. now rewrite He, Hc.
Qed.

(** C4: the code at a view class that declares the endpoint
    ["people"], constructed without an endpoint argument. Endpoint
    resolution yields [None], not the lower-cased name ["users"], and
    the instance gets the endpoint [None] and the URL ["/None"]. *)
Theorem class_endpoint_resolves_to_none :
  AdminBaseView._get_endpoint
    (AdminBaseView.assigned Samples.Users Samples.with_admin) None = Ok None /\
  AdminBaseView.__init__ Samples.Users Samples.with_admin
  = Ok {| self_class := Samples.Users; _extension := None;
          name := Some "Users"; category := None;
          administration := Some Samples.admin;
          endpoint := None; url := Some "/None" |} /\
  lower "Users" = "users".
Proof. repeat split. Qed.

(** C9: with a registry, the endpoint location name is the registry's
    endpoint, a dot and the view's endpoint (formatted, so ["None"] for
    a view without endpoint); without one it is the view's endpoint as
    it stands. *)
Theorem endpoint_location_name_spec (self : instance) :
  (forall adm e,
     administration self = Some adm -> endpoint self = Some e ->
     AdminBaseView.endpoint_location_name self
     = Some (adm_endpoint adm ++ "." ++ e)) /\
  (forall adm,
     administration self = Some adm -> endpoint self = None ->
     AdminBaseView.endpoint_location_name self
     = Some (adm_endpoint adm ++ ".None")) /\
  (administration self = None ->
   AdminBaseView.endpoint_location_name self = endpoint self).
Proof.
  unfold AdminBaseView.endpoint_location_name.
  repeat split.
  - intros adm e -> ->. reflexivity.
  - intros adm -> ->. reflexivity.
  - intros ->. reflexivity.
Qed.

Lemma endpoint_location_name_spec_witness :
  AdminBaseView.endpoint_location_name
    (set_url (Some "/records")
       (set_endpoint (Some "records")
          (AdminBaseView.assigned Samples.Records Samples.with_admin)))
  = Some "administration.records" /\
  AdminBaseView.endpoint_location_name
    (set_endpoint (Some "records")
       (AdminBaseView.assigned Samples.Records default_args))
  = Some "records".
Proof.
  split.
  - apply (proj1 (endpoint_location_name_spec _) Samples.admin "records");
      reflexivity.
  - exact (proj2 (proj2 (endpoint_location_name_spec
                            (set_endpoint (Some "records")
                               (AdminBaseView.assigned Samples.Records
                                  default_args)))) eq_refl).
Defined.

(* ===================================================================== *)
(** ** Resource lookup *)
(* ===================================================================== *)

(** C2, as stated, fails: the extension ["invenio-users"] has no
    attribute ["groups_resource"], and the view class that names it is
    instantiated all the same. *)
Lemma misnamed_resource_instantiates :
  resource_config Samples.Misnamed = Some "groups_resource" /\
  (exists ext,
     AdminResourceBaseView._get_view_extension
       Samples.app (base Samples.Misnamed) None = Ok ext /\
     ext !! "groups_resource" = None) /\
  AdminResourceBaseView.__init__ Samples.Misnamed Samples.with_admin
  = Ok {| as_view :=
            {| self_class := base Samples.Misnamed;
               _extension := Some "invenio-users";
               name := Some "Users"; category := None;
               administration := Some Samples.admin;
               endpoint := Some "users"; url := Some "/users" |};
          r_class := Samples.Misnamed |}.
Proof.
  split; [reflexivity|]. split; [|reflexivity].
  eexists. split; [vm_compute; reflexivity|]. vm_compute. reflexivity.
Qed.

(** C2, amended: the resource is looked up by [_get_resource], which
    [set_resource] calls, not by the constructor. When [resource_config]
    names an attribute that the view's extension does not have, both
    raise [InvalidResource] with the resource name and the name of the
    view class; the constructor never raises [InvalidResource]. *)
Theorem invalid_resource_on_lookup
        (app : App) (cls : ResourceViewClass) (extension : option string)
        (ext : gmap string Resource) (attr : string) :
  AdminResourceBaseView._get_view_extension app (base cls) extension = Ok ext ->
  resource_config cls = Some attr ->
  ext !! attr = None ->
  AdminResourceBaseView._get_resource app cls extension
  = Err (InvalidResource (Some attr) (class_name (base cls))) /\
  AdminResourceBaseView.set_resource app cls extension
  = Err (InvalidResource (Some attr) (class_name (base cls))) /\
  (forall a r v,
     AdminResourceBaseView.__init__ cls a <> Err (InvalidResource r v)).
Proof.
  intros Hext Hcfg Hattr.
  assert (Hget : AdminResourceBaseView._get_resource app cls extension
                 = Err (InvalidResource (Some attr) (class_name (base cls)))).
  { unfold AdminResourceBaseView._get_resource. rewrite Hext. simpl.
    now rewrite Hcfg, Hattr. }
  split; [exact Hget|]. split.
  - unfold AdminResourceBaseView.set_resource. now rewrite Hget.
  - intros a r v. unfold AdminResourceBaseView.__init__.
    destruct (AdminBaseView.__init__ (base cls) a) as [self|e] eqn:Hinit; simpl.
    + rewrite Hcfg. destruct (_extension self); discriminate.
    + intros [= ->]. exact (init_error_kind _ _ _ Hinit).
Qed.

Lemma invalid_resource_on_lookup_witness :
  AdminResourceBaseView._get_resource Samples.app Samples.Misnamed None
  = Err (InvalidResource (Some "groups_resource") "MisnamedView") /\
  AdminResourceBaseView.set_resource Samples.app Samples.Misnamed None
  = Err (InvalidResource (Some "groups_resource") "MisnamedView").
Proof.
  destruct (invalid_resource_on_lookup Samples.app Samples.Misnamed None
              {["users_resource" := Samples.users_resource]} "groups_resource")
    as (Hget & Hset & _).
  - vm_compute. reflexivity.
  - reflexivity.
  - vm_compute. reflexivity.
  - split; [exact Hget | exact Hset].
Defined.

Example resource_found :
  AdminResourceBaseView._get_resource Samples.app Samples.UserDetail None
  = Ok Samples.users_resource.
Proof. vm_compute. reflexivity. Qed.

(* ===================================================================== *)
(** ** The detail view *)
(* ===================================================================== *)

(** C7, as stated, fails: the GET handler called with the identifier
    ["42"] renders a context with the two keys ["schema"] and
    ["admin_base_template"]; no entry holds the identifier, and another
    identifier gives the same call. *)
Lemma detail_context_without_identifier :
  AdminResourceDetailView.get Samples.jsonify Samples.user_detail (Some "42")
  = Ok {| r_template := "invenio_administration/details.html";
          r_context :=
            <["admin_base_template" := CStr "invenio_administration/base.html"]>
              {["schema" := CVal (VDict [("email", VStr "Email");
                                         ("active", VStr "Boolean")])]} |} /\
  (forall rd k,
     AdminResourceDetailView.get Samples.jsonify Samples.user_detail (Some "42")
     = Ok rd ->
     r_context rd !! k <> Some (CStr "42") /\
     r_context rd !! k <> Some (CVal (VStr "42"))) /\
  AdminResourceDetailView.get Samples.jsonify Samples.user_detail (Some "42")
  = AdminResourceDetailView.get Samples.jsonify Samples.user_detail (Some "7").
Proof.
  split; [reflexivity|]. split; [|reflexivity].
  intros rd k [= <-]. simpl.
  destruct (decide (k = "admin_base_template")) as [->|Hk1].
  - rewrite lookup_insert_eq. split; discriminate.
  - rewrite lookup_insert_ne by congruence.
    destruct (decide (k = "schema")) as [->|Hk2].
    + rewrite lookup_singleton_eq. split; discriminate.
    + rewrite lookup_singleton_ne by congruence. split; discriminate.
Qed.

(** C7, amended: for a detail view with a bound resource and a
    registry, the GET handler, whatever identifier it is given, fetches
    the schema of the resource's service, serializes it, and renders
    the template of the view with the serialized schema under
    ["schema"] and the registry's base template under
    ["admin_base_template"]; the identifier is not passed on. *)
Theorem detail_get_renders_schema
        (jsonify_schema : Schema -> value) (self : resource_view)
        (pid_value : option string) (r : Resource) (adm : AdminAttrs) :
  resource (r_class self) = Some r ->
  administration (as_view self) = Some adm ->
  AdminResourceDetailView.get jsonify_schema self pid_value
  = Ok {| r_template := c_template (self_class (as_view self));
          r_context :=
            <["admin_base_template" := CStr (base_template adm)]>
              {["schema" := CVal (jsonify_schema (service_schema r))]} |}.
Proof.
  intros Hres Hadm.
  unfold AdminResourceDetailView.get, AdminResourceBaseView._get_service_schema.
  rewrite Hres. simpl. unfold Render.render. now rewrite Hadm.
Qed.

Lemma detail_get_renders_schema_witness :
  AdminResourceDetailView.get Samples.jsonify Samples.user_detail (Some "42")
  = Ok {| r_template := "invenio_administration/details.html";
          r_context :=
            <["admin_base_template" := CStr "invenio_administration/base.html"]>
              {["schema" := CVal (Samples.jsonify Samples.users_schema)]} |}.
Proof.
  exact (detail_get_renders_schema Samples.jsonify Samples.user_detail
           (Some "42") Samples.users_resource Samples.admin eq_refl eq_refl).
Defined.

(* ===================================================================== *)
(** ** The list view *)
(* ===================================================================== *)

Example user_list_search_config :
  AdminResourceListView.init_search_config
    Samples.app (Samples.list_instance Samples.UserList)
  = Ok {| config_name := "USERS_SEARCH";
          sc_available_facets := VDict [("domain", VStr "Domain")];
          sc_sort_options := VDict [("newest", VStr "Newest")];
          sc_endpoint := "/api//users";
          sc_headers :=
            VDict [("Accept", VStr "application/vnd.inveniordm.v1+json")] |}.
Proof. vm_compute. reflexivity. Qed.

(** C6, as stated, fails. A list view that declares the sort options
    [{"email": ...}] and the facets [{"active": ...}] gets a search
    configuration with the entries ["USERS_SORT"] and ["USERS_FACETS"]
    of the application configuration; and the view that declares both
    empty gets these entries too, not the sort options and facets of
    the resource's service. *)
Lemma search_config_not_from_view :
  (exists rd sc,
     AdminResourceListView.get Samples.app (Samples.list_instance Samples.UserList)
     = Ok rd /\
     r_context rd !! "search_config" = Some (CSearchConfig sc) /\
     sort_options Samples.UserList = VDict [("email", VStr "Email")] /\
     sc_sort_options sc = VDict [("newest", VStr "Newest")] /\
     available_facets Samples.UserList = VDict [("active", VStr "Active")] /\
     sc_available_facets sc = VDict [("domain", VStr "Domain")]) /\
  (exists rd sc,
     AdminResourceListView.get
       Samples.app (Samples.list_instance Samples.UserListEmpty) = Ok rd /\
     r_context rd !! "search_config" = Some (CSearchConfig sc) /\
     sort_options Samples.UserListEmpty = VDict [] /\
     service_sort_options Samples.users_resource
     = VDict [("bestmatch", VStr "Best match")] /\
     sc_sort_options sc = VDict [("newest", VStr "Newest")] /\
     available_facets Samples.UserListEmpty = VDict [] /\
     service_facets Samples.users_resource = VDict [("status", VStr "Status")] /\
     sc_available_facets sc = VDict [("domain", VStr "Domain")]).
Proof.
  split.
  - eexists. eexists. split; [vm_compute; reflexivity|].
    split; [vm_compute; reflexivity|]. repeat split.
  - eexists. eexists. split; [vm_compute; reflexivity|].
    split; [vm_compute; reflexivity|]. repeat split.
Qed.

(** C6, amended: the search configuration assembled for a list view
    GET request takes its available facets and its sort options from
    the entries of the application configuration that the view names
    with [search_facets_config_name] and [search_sort_config_name],
    whatever the view declares as [available_facets] and
    [sort_options]; the GET handler passes it on under
    ["search_config"]. *)
Theorem search_config_from_app_config
        (app : App) (self : list_view) (fk sk : string) (fv sv : value)
        (cn ep : string) :
  search_facets_config_name (l_class self) = Some fk ->
  config app !! fk = Some fv ->
  search_sort_config_name (l_class self) = Some sk ->
  config app !! sk = Some sv ->
  AdminResourceListView.get_search_app_name self = Ok cn ->
  AdminResourceListView.get_search_api_endpoint app self = Ok ep ->
  let sc := {| config_name := cn;
               sc_available_facets := fv;
               sc_sort_options := sv;
               sc_endpoint := ep;
               sc_headers := search_request_headers (l_class self) |} in
  AdminResourceListView.init_search_config app self = Ok sc /\
  (forall adm,
     administration (l_view self) = Some adm ->
     exists rd,
       AdminResourceListView.get app self = Ok rd /\
       r_context rd !! "search_config" = Some (CSearchConfig sc)).
Proof.
  intros Hfk Hfv Hsk Hsv Hcn Hep sc.
  assert (Hinit : AdminResourceListView.init_search_config app self = Ok sc).
  { unfold AdminResourceListView.init_search_config.
    rewrite Hcn, Hfk, Hsk. simpl. rewrite Hfv, Hsv. simpl.
    now rewrite Hep. }
  split; [exact Hinit|].
  intros adm Hadm. unfold AdminResourceListView.get. rewrite Hinit. simpl.
  assert (Hres : exists r, resource (rbase (l_class self)) = Some r).
  { revert Hep. unfold AdminResourceListView.get_search_api_endpoint.
    destruct (resource (rbase (l_class self))); [eauto|discriminate]. }
  destruct Hres as [r Hres].
  unfold AdminResourceBaseView._get_service_schema. rewrite Hres. simpl.
  unfold Render.render. rewrite Hadm. eexists. split; [reflexivity|].
  simpl. rewrite !lookup_insert_ne by discriminate.
  apply lookup_singleton_eq.
Qed.

Lemma search_config_from_app_config_witness :
  AdminResourceListView.init_search_config
    Samples.app (Samples.list_instance Samples.UserList)
  = Ok {| config_name := "USERS_SEARCH";
          sc_available_facets := VDict [("domain", VStr "Domain")];
          sc_sort_options := VDict [("newest", VStr "Newest")];
          sc_endpoint := "/api//users";
          sc_headers := AdminResourceListView.default_headers |}.
Proof.
  refine (proj1 (search_config_from_app_config
                   Samples.app (Samples.list_instance Samples.UserList)
                   "USERS_FACETS" "USERS_SORT"
                   (VDict [("domain", VStr "Domain")])
                   (VDict [("newest", VStr "Newest")])
                   "USERS_SEARCH" "/api//users" _ _ _ _ _ _));
    vm_compute; reflexivity.
Defined.

(** Without the two names, which the class leaves at [None], the
    lookup in the configuration raises. *)
Lemma search_config_without_names (app : App) (self : list_view) (cn : string) :
  search_facets_config_name (l_class self) = None ->
  AdminResourceListView.get_search_app_name self = Ok cn ->
  AdminResourceListView.init_search_config app self = Err (KeyError None).
Proof.
  intros Hfk Hcn. unfold AdminResourceListView.init_search_config.
  now rewrite Hcn, Hfk.
Qed.

Lemma declared_sort_options_kept (self : list_view) :
  truthy (sort_options (l_class self)) = true ->
  AdminResourceListView.get_sort_options self = Ok (sort_options (l_class self)).
Proof.
  intros H. unfold AdminResourceListView.get_sort_options. now rewrite H.
Qed.

Lemma declared_facets_kept (self : list_view) :
  truthy (available_facets (l_class self)) = true ->
  AdminResourceListView.get_available_facets self
  = Ok (available_facets (l_class self)).
Proof.
  intros H. unfold AdminResourceListView.get_available_facets. now rewrite H.
Qed.

(** C10: for a list view with a bound resource, [get_sort_options] and
    [get_available_facets] return the configuration of the resource's
    service when the mapping of the view is empty, also when it is
    declared empty, and return a non-empty mapping of the view
    unchanged. *)
Theorem empty_options_fall_back_to_service (self : list_view) (r : Resource) :
  resource (rbase (l_class self)) = Some r ->
  (sort_options (l_class self) = VDict [] ->
   AdminResourceListView.get_sort_options self = Ok (service_sort_options r)) /\
  (available_facets (l_class self) = VDict [] ->
   AdminResourceListView.get_available_facets self = Ok (service_facets r)) /\
  (forall item items,
     sort_options (l_class self) = VDict (item :: items) ->
     AdminResourceListView.get_sort_options self = Ok (VDict (item :: items))) /\
  (forall item items,
     available_facets (l_class self) = VDict (item :: items) ->
     AdminResourceListView.get_available_facets self
     = Ok (VDict (item :: items))).
Proof.
  intros Hres.
  unfold AdminResourceListView.get_sort_options,
    AdminResourceListView.get_available_facets.
  repeat split.
  - intros ->. simpl. now rewrite Hres.
  - intros ->. simpl. now rewrite Hres.
  - intros item items ->. reflexivity.
  - intros item items ->. reflexivity.
Qed.

Lemma empty_options_fall_back_to_service_witness :
  AdminResourceListView.get_sort_options
    (Samples.list_instance Samples.UserListEmpty)
  = Ok (VDict [("bestmatch", VStr "Best match")]) /\
  AdminResourceListView.get_available_facets
    (Samples.list_instance Samples.UserListEmpty)
  = Ok (VDict [("status", VStr "Status")]) /\
  AdminResourceListView.get_sort_options
    (Samples.list_instance Samples.UserList)
  = Ok (VDict [("email", VStr "Email")]).
Proof.
  destruct (empty_options_fall_back_to_service
              (Samples.list_instance Samples.UserListEmpty)
              Samples.users_resource eq_refl) as (Hsort & Hfacets & _).
  destruct (empty_options_fall_back_to_service
              (Samples.list_instance Samples.UserList)
              Samples.users_resource eq_refl) as (_ & _ & Hkept & _).
  split; [exact (Hsort eq_refl)|]. split; [exact (Hfacets eq_refl)|].
  exact (Hkept _ _ eq_refl).
Defined.

(* ===================================================================== *)
(** ** Registration *)
(* ===================================================================== *)

(** C8, as stated, fails: for a callable whose name has a dot,
    [add_view] appends the callable and then [Blueprint.add_url_rule]
    raises; no rule is added to the blueprint and the instance does not
    reach the menu. *)
Lemma add_view_dotted_name_raises :
  vf_name Samples.dotted_records_view = Some "my.records" /\
  Administration.add_view
    Samples.registry Samples.dotted_records_view Samples.records
  = (with_views (_views Samples.registry ++ [Samples.dotted_records_view])%list
       Samples.registry,
     Err (ValueError "'view_func' name may not contain a dot '.' character.")) /\
  url_rules (blueprint (fst (Administration.add_view
                               Samples.registry Samples.dotted_records_view
                               Samples.records)))
  = url_rules (blueprint Samples.registry) /\
  _menu (fst (Administration.add_view
                Samples.registry Samples.dotted_records_view Samples.records))
  = _menu Samples.registry.
Proof. repeat split. Qed.

(** C8, amended: every call of [add_view] appends the callable to the
    list of views, which grows by one and keeps its earlier entries in
    place, and leaves the attributes of the registry and of the
    blueprint as they were. When the name of the callable has no dot
    the call returns, with the rule that binds the URL of the instance
    to the callable added to the blueprint and the instance handed to
    the menu; when it has one the call raises [ValueError], and the
    rules and the menu are as before. *)
Theorem add_view_effects (self : Registry) (view : view_func)
        (view_instance : instance) :
  let self' := fst (Administration.add_view self view view_instance) in
  let outcome := snd (Administration.add_view self view view_instance) in
  (_views self' = (_views self ++ [view])%list /\
   length (_views self') = S (length (_views self)) /\
   (forall i v, _views self !! i = Some v -> _views self' !! i = Some v) /\
   _views self' !! length (_views self) = Some view /\
   attrs self' = attrs self /\
   _menu_key self' = _menu_key self /\
   bp_name (blueprint self') = bp_name (blueprint self) /\
   url_prefix (blueprint self') = url_prefix (blueprint self)) /\
  (Administration.dotted_name view = false ->
   outcome = Ok tt /\
   url_rules (blueprint self')
   = (url_rules (blueprint self) ++ [(url view_instance, view)])%list /\
   _menu self' = add_view_to_menu view_instance (_menu self)) /\
  (Administration.dotted_name view = true ->
   (exists msg, outcome = Err (ValueError msg)) /\
   url_rules (blueprint self') = url_rules (blueprint self) /\
   _menu self' = _menu self).
Proof.
  unfold Administration.add_view, Administration.add_url_rule.
  destruct (Administration.dotted_name view); simpl.
  - split; [|split; [discriminate|]].
    + repeat split.
      * rewrite length_app. simpl. lia.
      * intros i v Hi. now apply lookup_app_l_Some.
      * rewrite lookup_app_r by lia. now rewrite Nat.sub_diag.
    + intros _. split; [eauto|]. split; reflexivity.
  - split; [|split; [|discriminate]].
    + repeat split.
      * rewrite length_app. simpl. lia.
      * intros i v Hi. now apply lookup_app_l_Some.
      * rewrite lookup_app_r by lia. now rewrite Nat.sub_diag.
    + intros _. repeat split.
Qed.

Lemma add_view_effects_witness :
  let self' :=
    fst (Administration.add_view
           Samples.registry Samples.records_view Samples.records) in
  snd (Administration.add_view
         Samples.registry Samples.records_view Samples.records) = Ok tt /\
  url_rules (blueprint self')
  = (url_rules (blueprint Samples.registry)
       ++ [(Some "/records", Samples.records_view)])%list /\
  _menu self' = add_view_to_menu Samples.records (_menu Samples.registry).
Proof.
  exact (proj1 (proj2 (add_view_effects
                         Samples.registry Samples.records_view Samples.records))
           eq_refl).
Defined.

Example add_records_view :
  let self' :=
    fst (Administration.add_view
           Samples.registry Samples.records_view Samples.records) in
  List.map vf_class (_views self') = ["Dashboard"; "RecordsView"] /\
  List.map fst (url_rules (blueprint self')) = [Some "/"; Some "/records"] /\
  List.map entry_endpoint (_menu self')
  = [Some "administration.dashboard"; Some "administration.records"].
Proof. repeat split. Qed.

(* ===================================================================== *)
(** ** More on the constructor of AdminBaseView *)
(* ===================================================================== *)

Lemma startswith_slash (s : string) :
  startswith s "/" = true <-> exists r, s = String "/" r.
Proof.
  unfold startswith. destruct s as [|c r]; cbn [String.prefix].
  - split; [discriminate | intros [r [=]]].
  - destruct (ascii_dec "/" c) as [<-|Hne].
    + split; [eauto | intros _; now destruct r].
    + split; [discriminate | intros [r' [= -> ->]]; congruence].
Qed.

Lemma startswith_slash_app (s t : string) :
  startswith s "/" = true -> startswith (s ++ t) "/" = true.
Proof.
  intros H. apply startswith_slash in H as [r ->].
  apply startswith_slash. simpl. eauto.
Qed.

Lemma resolve_url_not_dashboard (self : instance) (u : option string)
      (adm : AdminAttrs) (dash : string) :
  truthy_str u = false -> url self = None ->
  administration self = Some adm -> dashboard_view_class adm = Some dash ->
  isinstance self dash = false ->
  AdminBaseView.resolve_url self u = Ok ("/" ++ pystr (endpoint self)).
Proof.
  intros Hu Hurl Hadm Hdash Hinst.
  unfold AdminBaseView.resolve_url, AdminBaseView._get_view_url.
  now rewrite Hu, Hurl, Hadm, Hdash, Hinst.
Qed.

Lemma resolve_url_instance_of_dashboard (self : instance) (u : option string)
      (adm : AdminAttrs) (dash : string) :
  truthy_str u = false -> url self = None ->
  administration self = Some adm -> dashboard_view_class adm = Some dash ->
  isinstance self dash = true ->
  AdminBaseView.resolve_url self u = Ok "/".
Proof.
  intros Hu Hurl Hadm Hdash Hinst.
  unfold AdminBaseView.resolve_url, AdminBaseView._get_view_url.
  now rewrite Hu, Hurl, Hadm, Hdash, Hinst.
Qed.

(** X1: a view that is not an instance of the dashboard class, built
    without a url argument from a class without url of its own, gets
    the URL ["/"] followed by its endpoint: the endpoint argument when
    one is given, the lower-cased name when neither the argument nor
    the class gives an endpoint. The name is taken to be ASCII, where
    [lower] is [str.lower]. *)
Theorem default_url_is_slash_endpoint
        (cls : BaseViewClass) (a : init_args) (adm : AdminAttrs) (dash : string) :
  arg_admin a = Some adm ->
  dashboard_view_class adm = Some dash ->
  dash ∉ class_name cls :: class_bases cls ->
  truthy_str (arg_url a) = false ->
  c_url cls = None ->
  is_Some (c_get cls) ->
  (forall e, arg_endpoint a = Some e -> e <> "" ->
     exists self, AdminBaseView.__init__ cls a = Ok self /\
                  endpoint self = Some e /\ url self = Some ("/" ++ e)) /\
  (forall n,
     truthy_str (arg_endpoint a) = false ->
     truthy_str (c_endpoint cls) = false ->
     match c_name cls with Some n' => Some n' | None => arg_name a end = Some n ->
     ascii_only n = true ->
     exists self, AdminBaseView.__init__ cls a = Ok self /\
                  endpoint self = Some (lower n) /\
                  url self = Some ("/" ++ lower n)).
Proof.
  intros Hadm Hdash Hnot Harg Hcls Hget.
  assert (Hurl : forall ep,
             AdminBaseView.resolve_url
               (set_endpoint ep (AdminBaseView.assigned cls a)) (arg_url a)
             = Ok ("/" ++ pystr ep)).
  { intros ep.
    refine (resolve_url_not_dashboard
              (set_endpoint ep (AdminBaseView.assigned cls a)) (arg_url a)
              adm dash Harg Hcls Hadm Hdash _).
    unfold isinstance. now apply bool_decide_eq_false. }
  split.
  - intros e He Hne.
    assert (Hep : AdminBaseView._get_endpoint (AdminBaseView.assigned cls a)
                    (arg_endpoint a) = Ok (Some e)).
    { rewrite He. apply get_endpoint_argument. destruct e; [congruence|reflexivity]. }
    eexists. split; [exact (init_with _ _ _ _ Hep (Hurl _) Hget)|].
    split; reflexivity.
  - intros n He Hc Hn _.
    assert (Hep : AdminBaseView._get_endpoint (AdminBaseView.assigned cls a)
                    (arg_endpoint a) = Ok (Some (lower n))).
    { now apply get_endpoint_lowered_name. }
    eexists. split; [exact (init_with _ _ _ _ Hep (Hurl _) Hget)|].
    split; reflexivity.
Qed.

Lemma default_url_is_slash_endpoint_witness :
  (exists self,
     AdminBaseView.__init__ Samples.Anonymous Samples.labelled_args = Ok self /\
     endpoint self = Some "audit" /\ url self = Some "/audit") /\
  (exists self,
     AdminBaseView.__init__ Samples.Records Samples.with_admin = Ok self /\
     endpoint self = Some "records" /\ url self = Some "/records").
Proof.
  split.
  - destruct (default_url_is_slash_endpoint
                Samples.Anonymous Samples.labelled_args Samples.admin "Dashboard")
      as (Harg & _); try reflexivity.
    + intros Hin. apply list_elem_of_In in Hin. simpl in Hin.
      intuition discriminate.
    + eexists; reflexivity.
    + apply Harg; [reflexivity | discriminate].
  - destruct (default_url_is_slash_endpoint
                Samples.Records Samples.with_admin Samples.admin "Dashboard")
      as (_ & Hname); try reflexivity.
    + intros Hin. apply list_elem_of_In in Hin. simpl in Hin.
      intuition discriminate.
    + eexists; reflexivity.
    + apply (Hname "Records"); reflexivity.
Defined.

(** X2: the test for the dashboard is [isinstance]: a view whose class
    is a subclass of the configured dashboard class, built without url
    argument and without url of its own, gets the URL ["/"] as the
    dashboard does. *)
Theorem dashboard_subclass_url_is_root
        (cls : BaseViewClass) (a : init_args) (adm : AdminAttrs) (dash : string) :
  arg_admin a = Some adm ->
  dashboard_view_class adm = Some dash ->
  dash ∈ class_bases cls ->
  truthy_str (arg_url a) = false ->
  c_url cls = None ->
  is_Some (c_get cls) ->
  is_Some (c_name cls) \/ is_Some (arg_name a) ->
  exists self, AdminBaseView.__init__ cls a = Ok self /\ url self = Some "/".
Proof.
  intros Hadm Hdash Hsub Harg Hcls Hget Hname.
  destruct (get_endpoint_total cls a Hname) as [ep Hep].
  assert (Hurl : AdminBaseView.resolve_url
                   (set_endpoint ep (AdminBaseView.assigned cls a)) (arg_url a)
                 = Ok "/").
  { refine (resolve_url_instance_of_dashboard
              (set_endpoint ep (AdminBaseView.assigned cls a)) (arg_url a)
              adm dash Harg Hcls Hadm Hdash _).
    unfold isinstance. apply bool_decide_eq_true. simpl.
    now apply list_elem_of_further. }
  eexists. split; [exact (init_with _ _ _ _ Hep Hurl Hget)|reflexivity].
Qed.

Lemma dashboard_subclass_url_is_root_witness :
  exists self,
    AdminBaseView.__init__ Samples.Landing Samples.with_admin = Ok self /\
    url self = Some "/".
Proof.
  apply (dashboard_subclass_url_is_root
           Samples.Landing Samples.with_admin Samples.admin "Dashboard");
    try reflexivity.
  - apply list_elem_of_here.
  - eexists; reflexivity.
  - left; eexists; reflexivity.
Defined.

(** X3: in a constructed view, [name], [category] and [_extension] are
    those of the class when the class sets them, and the constructor's
    arguments only otherwise; [administration] is always the [admin]
    argument. *)
Theorem class_attributes_win_over_arguments
        (cls : BaseViewClass) (a : init_args) (self : instance) :
  AdminBaseView.__init__ cls a = Ok self ->
  self_class self = cls /\
  administration self = arg_admin a /\
  name self = match c_name cls with Some n => Some n | None => arg_name a end /\
  category self
  = match c_category cls with Some c => Some c | None => arg_category a end /\
  _extension self
  = match c_extension cls with Some e => Some e | None => arg_extension a end.
Proof.
  intros Hinit.
  destruct (init_ok_inv _ _ _ Hinit) as (ep & u & _ & _ & _ & ->).
  repeat split.
Qed.

Lemma class_attributes_win_over_arguments_witness :
  let landing :=
    {| self_class := Samples.Landing; _extension := Some "invenio-audit";
       name := Some "Landing"; category := Some "Home";
       administration := Some Samples.admin;
       endpoint := Some "audit"; url := Some "/" |} in
  let anonymous :=
    {| self_class := Samples.Anonymous; _extension := Some "invenio-audit";
       name := Some "Audit Log"; category := Some "System";
       administration := Some Samples.admin;
       endpoint := Some "audit"; url := Some "/audit" |} in
  (AdminBaseView.__init__ Samples.Landing Samples.labelled_args = Ok landing /\
   name landing = Some "Landing" /\ category landing = Some "Home" /\
   _extension landing = Some "invenio-audit") /\
  (AdminBaseView.__init__ Samples.Anonymous Samples.labelled_args = Ok anonymous /\
   name anonymous = Some "Audit Log" /\ category anonymous = Some "System").
Proof.
  intros landing anonymous.
  destruct (class_attributes_win_over_arguments
              Samples.Landing Samples.labelled_args landing eq_refl)
    as (_ & _ & Hn & Hc & He).
  destruct (class_attributes_win_over_arguments
              Samples.Anonymous Samples.labelled_args anonymous eq_refl)
    as (_ & _ & Hn' & Hc' & _).
  repeat split; assumption.
Defined.

(** X4: without a registry the constructor raises an [AttributeError]
    unless a non-empty url argument is given or the class declares a
    url that starts with ["/"]: URL resolution reads attributes of the
    registry. *)
Theorem no_registry_no_url_raises (cls : BaseViewClass) (a : init_args) :
  arg_admin a = None ->
  truthy_str (arg_url a) = false ->
  (forall u, c_url cls = Some u -> startswith u "/" = false) ->
  exists msg, AdminBaseView.__init__ cls a = Err (AttributeError msg).
Proof.
  intros Hadm Harg Hrel. rewrite init_steps. unfold mbind, result_bind.
  destruct (AdminBaseView._get_endpoint _ _) as [ep|e] eqn:Hep.
  - unfold AdminBaseView.resolve_url. rewrite Harg. simpl.
    unfold AdminBaseView._get_view_url. simpl. rewrite Hadm.
    destruct (c_url cls) as [u|] eqn:Hu; [|eauto].
    rewrite (Hrel u eq_refl). simpl. eauto.
  - revert Hep. unfold AdminBaseView._get_endpoint.
    destruct (truthy_str (arg_endpoint a)); [discriminate|].
    destruct (negb _); [|discriminate].
    destruct (name _); [discriminate|]. intros [= <-]. eauto.
Qed.

Lemma no_registry_no_url_raises_witness :
  exists msg,
    AdminBaseView.__init__ Samples.Records default_args = Err (AttributeError msg).
Proof.
  apply (no_registry_no_url_raises Samples.Records default_args);
    [reflexivity | reflexivity | discriminate].
Defined.

(** X5: when no url argument is given and the registry's URL prefix
    starts with ["/"], the URL of every constructed view starts with
    ["/"]. *)
Theorem resolved_url_has_leading_slash
        (cls : BaseViewClass) (a : init_args) (self : instance) :
  truthy_str (arg_url a) = false ->
  (forall adm, arg_admin a = Some adm -> startswith (adm_url adm) "/" = true) ->
  AdminBaseView.__init__ cls a = Ok self ->
  exists u, url self = Some u /\ startswith u "/" = true.
Proof.
  intros Harg Hprefix Hinit.
  destruct (init_ok_inv _ _ _ Hinit) as (ep & u & _ & Hu & _ & ->).
  exists u. split; [reflexivity|].
  revert Hu. unfold AdminBaseView.resolve_url. rewrite Harg. simpl.
  unfold AdminBaseView._get_view_url. simpl.
  destruct (c_url cls) as [cu|].
  - destruct (startswith cu "/") eqn:Hcu; simpl.
    + now intros [= <-].
    + destruct (arg_admin a) as [adm|]; [|discriminate].
      intros [= <-]. apply startswith_slash_app. now apply Hprefix.
  - destruct (arg_admin a) as [adm|]; [|discriminate].
    destruct (dashboard_view_class adm) as [dash|]; [|discriminate].
    destruct (isinstance _ dash); intros [= <-];
      apply startswith_slash; simpl; eauto.
Qed.

Lemma resolved_url_has_leading_slash_witness :
  exists u,
    url {| self_class := Samples.Stats; _extension := None;
           name := Some "Stats"; category := None;
           administration := Some Samples.admin;
           endpoint := Some "stats"; url := Some "/administration/stats/all" |}
    = Some u /\ startswith u "/" = true.
Proof.
  apply (resolved_url_has_leading_slash Samples.Stats Samples.with_admin).
  - reflexivity.
  - intros adm [= <-]. reflexivity.
  - reflexivity.
Defined.

(** X6: an empty string given as endpoint or url argument counts as no
    argument: the constructor gives the same result, or the same
    error, as with [None]. *)
Theorem empty_arguments_count_as_absent
        (cls : BaseViewClass) (n c ext : option string)
        (adm : option AdminAttrs) :
  AdminBaseView.__init__ cls
    {| arg_name := n; arg_category := c; arg_endpoint := Some "";
       arg_url := Some ""; arg_extension := ext; arg_admin := adm |}
  = AdminBaseView.__init__ cls
      {| arg_name := n; arg_category := c; arg_endpoint := None;
         arg_url := None; arg_extension := ext; arg_admin := adm |}.
Proof. rewrite !init_steps. reflexivity. Qed.

(* ===================================================================== *)
(** ** More on resource views *)
(* ===================================================================== *)

(** X7: once the base constructor has gone through, the constructor
    of a resource view raises the extension error when neither the
    class nor the argument gives an extension, raises the resource
    error when an extension is there and [resource_config] is [None],
    and succeeds when both are there. The extension is checked first. *)
Theorem resource_view_constructor_checks
        (cls : ResourceViewClass) (a : init_args) (self : instance) :
  AdminBaseView.__init__ (base cls) a = Ok self ->
  (c_extension (base cls) = None -> arg_extension a = None ->
   AdminResourceBaseView.__init__ cls a
   = Err (Exception ("Cannot instanciate resource view "
                     ++ class_name (base cls)
                     ++ " without an associated flask extension."))) /\
  (is_Some (c_extension (base cls)) \/ is_Some (arg_extension a) ->
   resource_config cls = None ->
   AdminResourceBaseView.__init__ cls a
   = Err (Exception ("Cannot instanciate resource view "
                     ++ class_name (base cls) ++ " without a resource."))) /\
  (is_Some (c_extension (base cls)) \/ is_Some (arg_extension a) ->
   is_Some (resource_config cls) ->
   AdminResourceBaseView.__init__ cls a
   = Ok {| as_view := self; r_class := cls |}).
Proof.
  intros Hinit.
  assert (Hext : _extension self
                 = match c_extension (base cls) with
                   | Some e => Some e | None => arg_extension a end).
  { destruct (init_ok_inv _ _ _ Hinit) as (ep & u & _ & _ & _ & ->).
    reflexivity. }
  unfold AdminResourceBaseView.__init__. rewrite Hinit. simpl. rewrite Hext.
  repeat split.
  - intros -> ->. reflexivity.
  - intros Hsome ->.
    destruct (c_extension (base cls)); [reflexivity|].
    destruct Hsome as [[? [=]]|[e ->]]. reflexivity.
  - intros Hsome [rc ->].
    destruct (c_extension (base cls)); [reflexivity|].
    destruct Hsome as [[? [=]]|[e ->]]. reflexivity.
Qed.

Lemma resource_view_constructor_checks_witness :
  AdminResourceBaseView.__init__ Samples.Unbound Samples.with_admin
  = Err (Exception
           "Cannot instanciate resource view UnboundView without an associated flask extension.") /\
  AdminResourceBaseView.__init__ Samples.UserDetail Samples.with_admin
  = Ok Samples.user_detail.
Proof.
  split.
  - refine (proj1 (resource_view_constructor_checks
                     Samples.Unbound Samples.with_admin
                     {| self_class := base Samples.Unbound; _extension := None;
                        name := Some "Unbound"; category := None;
                        administration := Some Samples.admin;
                        endpoint := Some "unbound"; url := Some "/unbound" |}
                     eq_refl) eq_refl eq_refl).
  - refine (proj2 (proj2 (resource_view_constructor_checks
                            Samples.UserDetail Samples.with_admin
                            (as_view Samples.user_detail) eq_refl)) _ _).
    + left. eexists. reflexivity.
    + eexists. reflexivity.
Defined.

(** X8: for a class that does not set [_extension], the extension
    given to the constructor is kept on the instance only. The class
    method [_get_resource] reads the class attribute, so without an
    extension argument of its own it looks up the key [None] and
    raises [KeyError], whatever the application holds. *)
Theorem constructor_extension_not_used_by_lookup (cls : ResourceViewClass) :
  c_extension (base cls) = None ->
  (forall a self,
     AdminResourceBaseView.__init__ cls a = Ok self ->
     is_Some (arg_extension a) /\
     _extension (as_view self) = arg_extension a) /\
  (forall app extension,
     truthy_str extension = false ->
     AdminResourceBaseView._get_resource app cls extension = Err (KeyError None) /\
     AdminResourceBaseView.set_resource app cls extension = Err (KeyError None)).
Proof.
  intros Hcls. split.
  - intros a self. unfold AdminResourceBaseView.__init__.
    destruct (AdminBaseView.__init__ (base cls) a) as [v|] eqn:Hinit;
      [simpl|discriminate].
    destruct (init_ok_inv _ _ _ Hinit) as (ep & u & _ & _ & _ & Heq).
    assert (He : _extension v = arg_extension a).
    { rewrite Heq. simpl. now rewrite Hcls. }
    rewrite He.
    destruct (arg_extension a) as [e|]; [|discriminate].
    destruct (resource_config cls); [|discriminate].
    intros [= <-]. simpl. split; [eauto|exact He].
  - intros app extension Hext.
    assert (Hget : AdminResourceBaseView._get_resource app cls extension
                   = Err (KeyError None)).
    { unfold AdminResourceBaseView._get_resource,
        AdminResourceBaseView._get_view_extension.
      now rewrite Hext, Hcls. }
    split; [exact Hget|].
    unfold AdminResourceBaseView.set_resource. now rewrite Hget.
Qed.

Lemma constructor_extension_not_used_by_lookup_witness :
  (exists self,
     AdminResourceBaseView.__init__
       Samples.Unbound (Samples.with_extension "invenio-users") = Ok self /\
     _extension (as_view self) = Some "invenio-users") /\
  AdminResourceBaseView._get_resource Samples.app Samples.Unbound None
  = Err (KeyError None).
Proof.
  destruct (constructor_extension_not_used_by_lookup Samples.Unbound eq_refl)
    as [Hinit Hlookup].
  split.
  - eexists. split; [reflexivity|].
    exact (proj2 (Hinit (Samples.with_extension "invenio-users") _ eq_refl)).
  - exact (proj1 (Hlookup Samples.app None eq_refl)).
Defined.

(** X9: when the extension has the attribute that [resource_config]
    names, [set_resource] binds that resource to the class and
    [set_schema] after it binds the schema of the resource's service;
    the other attributes of the class are unchanged, and
    [set_resource] on the result changes nothing. *)
Theorem set_resource_then_set_schema
        (app : App) (cls : ResourceViewClass) (extension : option string)
        (ext : gmap string Resource) (attr : string) (r : Resource) :
  AdminResourceBaseView._get_view_extension app (base cls) extension = Ok ext ->
  resource_config cls = Some attr ->
  ext !! attr = Some r ->
  exists cls1 cls2,
    AdminResourceBaseView.set_resource app cls extension = Ok cls1 /\
    AdminResourceBaseView.set_schema cls1 = Ok cls2 /\
    resource cls2 = Some r /\
    schema cls2 = Some (service_schema r) /\
    base cls2 = base cls /\
    resource_config cls2 = resource_config cls /\
    actions cls2 = actions cls /\
    AdminResourceBaseView.set_resource app cls1 extension = Ok cls1 /\
    AdminResourceBaseView._get_service_schema cls2 = Ok (service_schema r).
Proof.
  intros Hext Hcfg Hattr.
  assert (Hget : forall c, base c = base cls ->
                           resource_config c = resource_config cls ->
             AdminResourceBaseView._get_resource app c extension = Ok r).
  { intros c Hb Hc. unfold AdminResourceBaseView._get_resource.
    rewrite Hb, Hext. simpl. now rewrite Hc, Hcfg, Hattr. }
  exists (with_resource (Some r) cls),
         (with_schema (Some (service_schema r)) (with_resource (Some r) cls)).
  unfold AdminResourceBaseView.set_resource.
  rewrite (Hget cls eq_refl eq_refl).
  rewrite (Hget (with_resource (Some r) cls) eq_refl eq_refl).
  repeat split.
Qed.

Lemma set_resource_then_set_schema_witness :
  exists cls1 cls2,
    AdminResourceBaseView.set_resource Samples.app Samples.UserDetail None
    = Ok cls1 /\
    AdminResourceBaseView.set_schema cls1 = Ok cls2 /\
    resource cls2 = Some Samples.users_resource /\
    schema cls2 = Some Samples.users_schema.
Proof.
  destruct (set_resource_then_set_schema Samples.app Samples.UserDetail None
              {["users_resource" := Samples.users_resource]} "users_resource"
              Samples.users_resource)
    as (cls1 & cls2 & H1 & H2 & H3 & H4 & _).
  - vm_compute. reflexivity.
  - reflexivity.
  - vm_compute. reflexivity.
  - exists cls1, cls2. repeat split; assumption.
Defined.

(** X10: a non-empty extension argument of [_get_resource] replaces
    the extension of the class: the resource is looked up on the
    extension the argument names, and an argument that names no
    extension of the application raises [KeyError] with that name even
    when the class names one that exists. *)
Theorem extension_argument_replaces_class_extension
        (app : App) (cls : ResourceViewClass) (e : string) :
  e <> "" ->
  (extensions app !! e = None ->
   AdminResourceBaseView._get_resource app cls (Some e) = Err (KeyError (Some e))) /\
  (forall ext attr r,
     extensions app !! e = Some ext -> resource_config cls = Some attr ->
     ext !! attr = Some r ->
     AdminResourceBaseView._get_resource app cls (Some e) = Ok r).
Proof.
  intros Hne.
  assert (Ht : truthy_str (Some e) = true) by (destruct e; [congruence|reflexivity]).
  unfold AdminResourceBaseView._get_resource,
    AdminResourceBaseView._get_view_extension.
  rewrite Ht. simpl. split.
  - intros ->. reflexivity.
  - intros ext attr r Hext Hcfg Hattr. rewrite Hext. simpl.
    now rewrite Hcfg, Hattr.
Qed.

Lemma extension_argument_replaces_class_extension_witness :
  AdminResourceBaseView._get_resource
    Samples.app Samples.UserDetail (Some "invenio-groups")
  = Err (KeyError (Some "invenio-groups")) /\
  AdminResourceBaseView._get_resource
    Samples.app Samples.Unbound (Some "invenio-users")
  = Ok Samples.users_resource.
Proof.
  split.
  - apply (extension_argument_replaces_class_extension
             Samples.app Samples.UserDetail "invenio-groups");
      [discriminate | vm_compute; reflexivity].
  - apply (proj2 (extension_argument_replaces_class_extension
                    Samples.app Samples.Unbound "invenio-users"
                    ltac:(discriminate))
             {["users_resource" := Samples.users_resource]} "users_resource");
      vm_compute; reflexivity.
Defined.

(** X11: while no resource is bound to the class, [set_schema] and the
    GET handler of a detail view raise the [AttributeError] of the
    access to [resource.service], for every identifier and whether or
    not the view has a registry. *)
Theorem unbound_resource_detail_raises
        (jsonify_schema : Schema -> value) (self : resource_view)
        (pid_value : option string) :
  resource (r_class self) = None ->
  AdminResourceBaseView.set_schema (r_class self)
  = Err (AttributeError "'NoneType' object has no attribute 'service'") /\
  AdminResourceDetailView.get jsonify_schema self pid_value
  = Err (AttributeError "'NoneType' object has no attribute 'service'").
Proof.
  intros Hres.
  unfold AdminResourceBaseView.set_schema, AdminResourceDetailView.get,
    AdminResourceBaseView._get_service_schema.
  rewrite Hres. split; reflexivity.
Qed.

Lemma unbound_resource_detail_raises_witness :
  AdminResourceDetailView.get Samples.jsonify
    {| as_view := as_view Samples.user_detail; r_class := Samples.Misnamed |}
    (Some "42")
  = Err (AttributeError "'NoneType' object has no attribute 'service'").
Proof.
  exact (proj2 (unbound_resource_detail_raises Samples.jsonify
                  {| as_view := as_view Samples.user_detail;
                     r_class := Samples.Misnamed |} (Some "42") eq_refl)).
Defined.

(* ===================================================================== *)
(** ** Rendering *)
(* ===================================================================== *)



(* ===================================================================== *)
(** ** More on the list view *)
(* ===================================================================== *)

(** X13: the search API endpoint of a list view with a bound resource.
    A non-empty [search_api_endpoint] of the class is returned without
    a look at the application. Otherwise the endpoint is ["/api/"]
    followed by the first rule registered under
    [<blueprint_name>.search] in the application mounted at ["/api"];
    a missing mount or a missing endpoint raises [KeyError] with the
    key, and an empty list of rules raises [IndexError]. *)
Theorem search_api_endpoint_resolution
        (app : App) (self : list_view) (r : Resource) :
  resource (rbase (l_class self)) = Some r ->
  (forall e, search_api_endpoint (l_class self) = Some e -> e <> "" ->
     AdminResourceListView.get_search_api_endpoint app self = Ok e) /\
  (truthy_str (search_api_endpoint (l_class self)) = false ->
   (mounts app !! "/api" = None ->
    AdminResourceListView.get_search_api_endpoint app self
    = Err (KeyError (Some "/api"))) /\
   (forall api,
      mounts app !! "/api" = Some api ->
      (api !! (blueprint_name r ++ ".search") = None ->
       AdminResourceListView.get_search_api_endpoint app self
       = Err (KeyError (Some (blueprint_name r ++ ".search")))) /\
      (api !! (blueprint_name r ++ ".search") = Some [] ->
       AdminResourceListView.get_search_api_endpoint app self = Err IndexError) /\
      (forall rule rules,
         api !! (blueprint_name r ++ ".search") = Some (rule :: rules) ->
         AdminResourceListView.get_search_api_endpoint app self
         = Ok ("/api/" ++ rule)))).
Proof.
  intros Hres. unfold AdminResourceListView.get_search_api_endpoint.
  rewrite Hres. split.
  - intros e -> Hne. destruct e; [congruence|reflexivity].
  - intros ->. simpl. split.
    + intros ->. reflexivity.
    + intros api ->. simpl. repeat split.
      * intros ->. reflexivity.
      * intros ->. reflexivity.
      * intros rule rules ->. reflexivity.
Qed.

Lemma search_api_endpoint_resolution_witness :
  AdminResourceListView.get_search_api_endpoint
    Samples.host (Samples.list_instance Samples.UserListDefaults)
  = Ok "/api/users" /\
  AdminResourceListView.get_search_api_endpoint
    Samples.host (Samples.list_instance Samples.UserList)
  = Err (KeyError (Some "/api")) /\
  AdminResourceListView.get_search_api_endpoint
    Samples.app (Samples.list_instance Samples.UserList)
  = Ok "/api//users".
Proof.
  destruct (search_api_endpoint_resolution
              Samples.host (Samples.list_instance Samples.UserListDefaults)
              Samples.users_resource eq_refl) as [Hgiven _].
  destruct (search_api_endpoint_resolution
              Samples.host (Samples.list_instance Samples.UserList)
              Samples.users_resource eq_refl) as [_ Hhost].
  destruct (search_api_endpoint_resolution
              Samples.app (Samples.list_instance Samples.UserList)
              Samples.users_resource eq_refl) as [_ Happ].
  split; [|split].
  - apply Hgiven; [reflexivity | discriminate].
  - apply (proj1 (Hhost eq_refl)). vm_compute. reflexivity.
  - destruct (proj2 (Happ eq_refl) {["users.search" := ["/users"]]})
      as (_ & _ & Hrule); [vm_compute; reflexivity|].
    apply (Hrule "/users" []). vm_compute. reflexivity.
Defined.

(** X14: a list view whose search app name resolves cannot serve a GET
    request unless both configuration names are set and present in the
    application configuration: a name left at [None] raises
    [KeyError(None)], a name absent from the configuration raises
    [KeyError] with that name; the facets entry is read first. *)
Theorem list_get_missing_configuration
        (app : App) (self : list_view) (cn : string) :
  AdminResourceListView.get_search_app_name self = Ok cn ->
  (search_facets_config_name (l_class self) = None ->
   AdminResourceListView.get app self = Err (KeyError None)) /\
  (forall fk,
     search_facets_config_name (l_class self) = Some fk ->
     config app !! fk = None ->
     AdminResourceListView.get app self = Err (KeyError (Some fk))) /\
  (forall fk fv,
     search_facets_config_name (l_class self) = Some fk ->
     config app !! fk = Some fv ->
     (search_sort_config_name (l_class self) = None ->
      AdminResourceListView.get app self = Err (KeyError None)) /\
     (forall sk,
        search_sort_config_name (l_class self) = Some sk ->
        config app !! sk = None ->
        AdminResourceListView.get app self = Err (KeyError (Some sk)))).
Proof.
  intros Hcn.
  unfold AdminResourceListView.get, AdminResourceListView.init_search_config.
  rewrite Hcn. unfold mbind, result_bind, getitem. split; [|split].
  - intros ->. reflexivity.
  - intros fk -> ->. reflexivity.
  - intros fk fv -> ->. split.
    + intros ->. reflexivity.
    + intros sk -> ->. reflexivity.
Qed.

Lemma list_get_missing_configuration_witness :
  AdminResourceListView.get
    Samples.app (Samples.list_instance Samples.UserListDefaults)
  = Err (KeyError None) /\
  AdminResourceListView.get
    Samples.host (Samples.list_instance Samples.UserList)
  = Err (KeyError (Some "USERS_FACETS")).
Proof.
  split.
  - apply (proj1 (list_get_missing_configuration
                    Samples.app (Samples.list_instance Samples.UserListDefaults)
                    "USERS_SEARCH" eq_refl)).
    reflexivity.
  - apply (proj1 (proj2 (list_get_missing_configuration
                           Samples.host (Samples.list_instance Samples.UserList)
                           "USERS_SEARCH" eq_refl)) "USERS_FACETS").
    + reflexivity.
    + vm_compute. reflexivity.
Defined.

(** X15: when the search configuration is assembled, the resource is
    bound and the view has a registry, the GET handler of a list view
    renders the template of the view's class with exactly four
    entries: the search configuration, the schema of the resource's
    service as it is (not serialized), the [columns] of the class and
    the registry's base template. *)
Theorem list_get_context
        (app : App) (self : list_view) (sc : search_config)
        (r : Resource) (adm : AdminAttrs) :
  AdminResourceListView.init_search_config app self = Ok sc ->
  resource (rbase (l_class self)) = Some r ->
  administration (l_view self) = Some adm ->
  exists rd,
    AdminResourceListView.get app self = Ok rd /\
    r_template rd = c_template (self_class (l_view self)) /\
    r_context rd !! "search_config" = Some (CSearchConfig sc) /\
    r_context rd !! "resource_schema" = Some (CSchema (service_schema r)) /\
    r_context rd !! "columns" = Some (CVal (columns (l_class self))) /\
    r_context rd !! "admin_base_template" = Some (CStr (base_template adm)) /\
    dom (r_context rd)
    = {["search_config"; "resource_schema"; "columns"; "admin_base_template"]}.
Proof.
  intros Hsc Hres Hadm.
  unfold AdminResourceListView.get. rewrite Hsc. simpl.
  unfold AdminResourceBaseView._get_service_schema. rewrite Hres. simpl.
  unfold Render.render. rewrite Hadm.
  eexists. split; [reflexivity|]. simpl.
  split; [reflexivity|].
  split; [rewrite !lookup_insert_ne by discriminate; apply lookup_singleton_eq|].
  split; [rewrite !lookup_insert_ne by discriminate; apply lookup_insert_eq|].
  split; [rewrite lookup_insert_ne by discriminate; apply lookup_insert_eq|].
  split; [apply lookup_insert_eq|].
  rewrite !dom_insert_L, dom_singleton_L. set_solver.
Qed.

Lemma list_get_context_witness :
  exists rd,
    AdminResourceListView.get Samples.app (Samples.list_instance Samples.UserList)
    = Ok rd /\
    r_template rd = "invenio_administration/search.html" /\
    r_context rd !! "resource_schema" = Some (CSchema Samples.users_schema).
Proof.
  destruct (list_get_context Samples.app (Samples.list_instance Samples.UserList)
              {| config_name := "USERS_SEARCH";
                 sc_available_facets := VDict [("domain", VStr "Domain")];
                 sc_sort_options := VDict [("newest", VStr "Newest")];
                 sc_endpoint := "/api//users";
                 sc_headers := AdminResourceListView.default_headers |}
              Samples.users_resource Samples.admin)
    as (rd & Hget & Ht & _ & Hschema & _).
  - vm_compute. reflexivity.
  - reflexivity.
  - reflexivity.
  - exists rd. repeat split; assumption.
Defined.

(** X16: while no resource is bound to the class of a list view, the
    search API endpoint cannot be resolved, even when the class gives
    [search_api_endpoint] itself, so neither the search configuration
    nor the GET handler returns; and [get_sort_options] and
    [get_available_facets] raise when the mapping of the view is
    empty. *)
Theorem unbound_resource_list_raises (app : App) (self : list_view) :
  resource (rbase (l_class self)) = None ->
  AdminResourceListView.get_search_api_endpoint app self
  = Err (AttributeError "'NoneType' object has no attribute 'config'") /\
  raises (AdminResourceListView.init_search_config app self) /\
  raises (AdminResourceListView.get app self) /\
  (truthy (sort_options (l_class self)) = false ->
   AdminResourceListView.get_sort_options self
   = Err (AttributeError "'NoneType' object has no attribute 'service'")) /\
  (truthy (available_facets (l_class self)) = false ->
   AdminResourceListView.get_available_facets self
   = Err (AttributeError "'NoneType' object has no attribute 'service'")).
Proof.
  intros Hres.
  assert (Hep : AdminResourceListView.get_search_api_endpoint app self
                = Err (AttributeError "'NoneType' object has no attribute 'config'")).
  { unfold AdminResourceListView.get_search_api_endpoint. now rewrite Hres. }
  assert (Hsc : raises (AdminResourceListView.init_search_config app self)).
  { unfold raises, AdminResourceListView.init_search_config, mbind, result_bind.
    destruct (AdminResourceListView.get_search_app_name self); [|eauto].
    destruct (getitem _ _); [|eauto].
    destruct (getitem _ _); [|eauto].
    rewrite Hep. eauto. }
  split; [exact Hep|]. split; [exact Hsc|]. split; [|split].
  - destruct Hsc as [e He]. exists e.
    unfold AdminResourceListView.get. now rewrite He.
  - intros Ht. unfold AdminResourceListView.get_sort_options.
    now rewrite Ht, Hres.
  - intros Ht. unfold AdminResourceListView.get_available_facets.
    now rewrite Ht, Hres.
Qed.

Lemma unbound_resource_list_raises_witness :
  let unbound :=
    {| l_view := l_view (Samples.list_instance Samples.UserListDefaults);
       l_class :=
         {| rbase := with_resource None Samples.list_resource_class;
            display_create := false; display_read := true;
            search_config_name := None;
            search_facets_config_name := Some "USERS_FACETS";
            search_sort_config_name := Some "USERS_SORT";
            sort_options := VDict []; available_facets := VDict [];
            column_exclude_list := VNone; columns := VNone;
            search_api_endpoint := Some "/api/users";
            search_request_headers := AdminResourceListView.default_headers |} |} in
  AdminResourceListView.get_search_api_endpoint Samples.app unbound
  = Err (AttributeError "'NoneType' object has no attribute 'config'") /\
  raises (AdminResourceListView.get Samples.app unbound).
Proof.
  intros unbound.
  destruct (unbound_resource_list_raises Samples.app unbound eq_refl)
    as (Hep & _ & Hget & _).
  split; assumption.
Defined.

(* ===================================================================== *)
(** ** More on the registry *)
(* ===================================================================== *)

(** A call of [add_view] with a callable whose name has no dot. *)
Lemma add_view_step (reg : Registry) (v : view_func) (vi : instance) :
  Administration.dotted_name v = false ->
  snd (Administration.add_view reg v vi) = Ok tt /\
  _views (fst (Administration.add_view reg v vi)) = (_views reg ++ [v])%list /\
  url_rules (blueprint (fst (Administration.add_view reg v vi)))
  = (url_rules (blueprint reg) ++ [(url vi, v)])%list /\
  attrs (fst (Administration.add_view reg v vi)) = attrs reg /\
  bp_name (blueprint (fst (Administration.add_view reg v vi)))
  = bp_name (blueprint reg) /\
  url_prefix (blueprint (fst (Administration.add_view reg v vi)))
  = url_prefix (blueprint reg).
Proof.
  intros Hv. unfold Administration.add_view, Administration.add_url_rule.
  rewrite Hv. simpl. repeat split.
Qed.

(** X17: calls of [add_view] made one after the other, each made only
    when the one before returned. When no callable has a dot in its
    name every call returns, and the views are kept in the order of
    the calls, in the list of views and in the rules of the blueprint,
    each rule binding the URL of the instance to its callable; nothing
    is checked for duplicates. The attributes of the registry and of
    the blueprint stay as they are. *)
Theorem add_views_in_order (l : list (view_func * instance)) (reg : Registry) :
  Forall (fun p => Administration.dotted_name (fst p) = false) l ->
  let call (before : result Registry) (p : view_func * instance) :=
    r ← before;
    _ ← snd (Administration.add_view r (fst p) (snd p));
    Ok (fst (Administration.add_view r (fst p) (snd p))) in
  exists reg',
    fold_left call l (Ok reg) = Ok reg' /\
    _views reg' = (_views reg ++ List.map fst l)%list /\
    url_rules (blueprint reg')
    = (url_rules (blueprint reg)
         ++ List.map (fun p => (url (snd p), fst p)) l)%list /\
    attrs reg' = attrs reg /\
    bp_name (blueprint reg') = bp_name (blueprint reg) /\
    url_prefix (blueprint reg') = url_prefix (blueprint reg).
Proof.
  intros Hl call. revert reg.
  induction Hl as [|[v vi] l Hv Hl IH]; intros reg; simpl.
  - exists reg. rewrite !app_nil_r. repeat split.
  - destruct (add_view_step reg v vi Hv) as (Hout & Hviews & Hrules & Ha & Hn & Hp).
    rewrite Hout. simpl.
    destruct (IH (fst (Administration.add_view reg v vi)))
      as (reg' & Hfold & Hv' & Hr' & Ha' & Hn' & Hp').
    exists reg'. split; [exact Hfold|].
    rewrite Hv', Hr', Ha', Hn', Hp', Hviews, Hrules, Ha, Hn, Hp, <- !app_assoc.
    repeat split.
Qed.

Lemma add_views_in_order_witness :
  exists reg',
    (r ← (r ← Ok Samples.registry;
          _ ← snd (Administration.add_view r Samples.records_view Samples.records);
          Ok (fst (Administration.add_view r Samples.records_view Samples.records)));
     _ ← snd (Administration.add_view r Samples.records_view Samples.records);
     Ok (fst (Administration.add_view r Samples.records_view Samples.records)))
    = Ok reg' /\
    List.map vf_class (_views reg') = ["Dashboard"; "RecordsView"; "RecordsView"] /\
    List.map fst (url_rules (blueprint reg'))
    = [Some "/"; Some "/records"; Some "/records"].
Proof.
  destruct (add_views_in_order
              [(Samples.records_view, Samples.records);
               (Samples.records_view, Samples.records)] Samples.registry)
    as (reg' & Hfold & Hviews & Hrules & _).
  - repeat constructor.
  - exists reg'. split; [exact Hfold|]. rewrite Hviews, Hrules. split; reflexivity.
Defined.

Lemma truthy_str_pystr (o : option string) :
  truthy_str o = true -> pystr o <> "".
Proof. destruct o as [[|c s]|]; simpl; congruence. Qed.


Lemma or_default_nonempty (o : option string) (d : string) :
  d <> "" -> (if truthy_str o then pystr o else d) <> "".
Proof.
  intros Hd. destruct (truthy_str o) eqn:Ho; [|exact Hd].
  now apply truthy_str_pystr.
Qed.




(** X19: a registry that has been constructed has a non-empty
    endpoint, URL prefix and base template, whatever was given (an
    empty string gives the default, as [None] does), while its name is
    the name argument as it is, also when empty; its blueprint carries
    the endpoint as name and the URL as prefix; and it holds at most
    one view, with one rule for it. *)
Theorem registry_after_init
        (modules : gmap string (option BaseViewClass)) (app : App)
        (n u e b : option string) (reg : Registry) :
  Administration.__init__ modules app n u e b = Ok reg ->
  adm_endpoint (attrs reg) <> "" /\
  adm_url (attrs reg) <> "" /\
  base_template (attrs reg) <> "" /\
  adm_name (attrs reg) = match n with None => "Administration" | Some s => s end /\
  bp_name (blueprint reg) = adm_endpoint (attrs reg) /\
  url_prefix (blueprint reg) = adm_url (attrs reg) /\
  List.map snd (url_rules (blueprint reg)) = _views reg /\
  length (_views reg) <= 1.
Proof.
  unfold Administration.__init__, mbind, result_bind.
  destruct (Administration.load_admin_dashboard modules app) as [dashboard|];
    [|discriminate].
  assert (He : (if truthy_str e then pystr e else "administration") <> "")
    by (apply or_default_nonempty; discriminate).
  assert (Hu : (if truthy_str u then pystr u else "/administration") <> "")
    by (apply or_default_nonempty; discriminate).
  assert (Hb : (if truthy_str b then pystr b
                else "invenio_administration/base.html") <> "")
    by (apply or_default_nonempty; discriminate).
  unfold Administration.create_blueprint, Administration.new_blueprint. simpl.
  destruct (contains_dot _); [discriminate|].
  destruct dashboard as [cls|].
  - unfold Administration._add_dashboard_view.
    destruct (AdminBaseView.__init__ cls _) as [inst|]; [|discriminate].
    destruct (Administration.as_view (c_name cls) cls) as [view|];
      [|discriminate].
    unfold Administration.add_view, Administration.add_url_rule. simpl.
    destruct (Administration.dotted_name view); [discriminate|].
    intros [= <-]. simpl. repeat split; auto.
  - intros [= <-]. simpl. repeat split; auto.
Qed.

Lemma registry_after_init_witness :
  adm_url (attrs Samples.registry) <> "" /\
  List.map snd (url_rules (blueprint Samples.registry)) = _views Samples.registry.
Proof.
  destruct (registry_after_init Samples.importable Samples.host
              None (Some "") None None Samples.registry)
    as (_ & Hurl & _ & _ & _ & _ & Hrules & _).
  - vm_compute. reflexivity.
  - split; assumption.
Defined.



(* ===================================================================== *)
(** ** Endpoint location of constructed views *)
(* ===================================================================== *)

(** X21: a view constructed with a registry, whose class declares no
    endpoint, is located at the registry's endpoint, a dot, and the
    endpoint argument when a non-empty one is given, the lower-cased
    name of the view otherwise. The name is taken to be ASCII, where
    [lower] is [str.lower]. *)
Theorem constructed_endpoint_location
        (cls : BaseViewClass) (a : init_args) (self : instance)
        (adm : AdminAttrs) :
  AdminBaseView.__init__ cls a = Ok self ->
  arg_admin a = Some adm ->
  truthy_str (c_endpoint cls) = false ->
  (forall e, arg_endpoint a = Some e -> e <> "" ->
     AdminBaseView.endpoint_location_name self
     = Some (adm_endpoint adm ++ "." ++ e)) /\
  (truthy_str (arg_endpoint a) = false ->
   exists n,
     name self = Some n /\
     (ascii_only n = true ->
      AdminBaseView.endpoint_location_name self
      = Some (adm_endpoint adm ++ "." ++ lower n))).
Proof.
  intros Hinit Hadm Hc.
  destruct (init_ok_inv _ _ _ Hinit) as (ep & u & Hep & _ & _ & ->).
  unfold AdminBaseView.endpoint_location_name. simpl. rewrite Hadm.
  revert Hep. unfold AdminBaseView._get_endpoint. simpl. rewrite Hc. simpl.
  split.
  - intros e He Hne. rewrite He in Hep.
    destruct e; [congruence|]. simpl in Hep. now injection Hep as <-.
  - intros He. rewrite He in Hep.
    destruct (match c_name cls with Some n => Some n | None => arg_name a end)
      as [n|]; [|discriminate].
    injection Hep as <-. eauto.
Qed.

Lemma constructed_endpoint_location_witness :
  AdminBaseView.endpoint_location_name
    {| self_class := Samples.Records; _extension := None;
       name := Some "Records"; category := None;
       administration := Some Samples.admin;
       endpoint := Some "records"; url := Some "/records" |}
  = Some "administration.records" /\
  AdminBaseView.endpoint_location_name
    {| self_class := Samples.Anonymous; _extension := Some "invenio-audit";
       name := Some "Audit Log"; category := Some "System";
       administration := Some Samples.admin;
       endpoint := Some "audit"; url := Some "/audit" |}
  = Some "administration.audit".
Proof.
  split.
  - destruct (proj2 (constructed_endpoint_location
                       Samples.Records Samples.with_admin _ Samples.admin
                       eq_refl eq_refl eq_refl) eq_refl) as (n & Hn & Hloc).
    injection Hn as <-. exact (Hloc eq_refl).
  - apply (proj1 (constructed_endpoint_location
                    Samples.Anonymous Samples.labelled_args _ Samples.admin
                    eq_refl eq_refl eq_refl) "audit");
      [reflexivity | discriminate].
Defined.
